(** * Air-quality index engine of [appcopy.py]

    A shallow embedding of the Streamlit script [src/appcopy.py]: the
    category guide [AIRNOW_AQI_GUIDE] with [get_airnow_aqi_info], the
    breakpoint tables [BREAKPOINTS] with [calculate_pollutant_aqi], the unit
    conversion and truncation of the raw readings, the aggregation into
    [overall_aqi] and [dominant_pollutant_key], and around them the search
    box, the two requests, the click on the map and what the page shows.

    Python numbers.  The script computes with Python [int]s and [float]s.
    The engine is written once, over an interface [Number] of the operations
    the script uses, and read at two instances:
    - [Binary64.number]: IEEE-754 double precision ([PrimFloat]), the
      arithmetic of CPython's [float]: this instance is the script;
    - [Exact.number]: every number is a rational ([Q]) and arithmetic is
      exact: this instance is the arithmetic of the formulas as the
      specification writes them, a reference the script is compared with,
      not the script.

    What depends only on the order of the numbers (which bracket the loop
    finds, what happens above the top bracket and between two brackets) is
    proved once for every ordered instance ([Ordered]) and holds for
    doubles and for exact concentrations alike.  What depends on the
    arithmetic is stated in double precision over the truncated
    concentrations the script passes to the tables, where the two
    instances are shown to agree by evaluation, and for every rational in
    exact arithmetic.

    Python exceptions are values of [result]: [max] of an empty sequence and
    [round]/[int] of a non-finite float raise. *)

From Stdlib Require Import ZArith QArith Qround Qabs Bool List String Lia Lqa.
From Stdlib Require Import Floats Uint63.
Import ListNotations.

Set Warnings "-inexact-float".
Local Open Scope Z_scope.

(** ** Exceptions *)

Inductive exn : Type :=
| ValueError      (* max() arg is an empty sequence; cannot convert float NaN to integer *)
| OverflowError   (* cannot convert float infinity to integer *)
| TypeError.      (* '>' not supported between 'NoneType' and 'int' *)

Inductive result (A : Type) : Type :=
| Ok (a : A)
| Raise (e : exn).
Arguments Ok {A} a.
Arguments Raise {A} e.

Definition bind {A B : Type} (m : result A) (k : A -> result B) : result B :=
  match m with
  | Ok a => k a
  | Raise e => Raise e
  end.

Notation "x <- m ;; k" := (bind m (fun x => k))
  (at level 61, m at next level, right associativity).

(** ** Dictionaries

    A Python [dict] literal keeps its keys in insertion order, and [max]
    iterates in that order: dictionaries are association lists. *)

Definition dict (V : Type) : Type := list (string * V).

Fixpoint dict_get {V : Type} (d : dict V) (k : string) : option V :=
  match d with
  | [] => None
  | (k', v) :: d' => if String.eqb k' k then Some v else dict_get d' k
  end.

(** [d.get(k, default)] *)
Definition dict_get_default {V : Type} (d : dict V) (k : string) (default : V) : V :=
  match dict_get d k with
  | Some v => v
  | None => default
  end.

Definition keys {V : Type} (d : dict V) : list string := map fst d.
Definition values {V : Type} (d : dict V) : list V := map snd d.

(** ** The numbers of the script *)

Class Number (F : Type) : Type := {
  lit : Q -> F;              (* a numeric literal, as written in decimal *)
  of_int : Z -> F;           (* a Python int used in float arithmetic *)
  add : F -> F -> F;
  sub : F -> F -> F;
  mul : F -> F -> F;
  div : F -> F -> F;         (* true division; every divisor below is non-zero *)
  ltb : F -> F -> bool;
  leb : F -> F -> bool;
  eqb : F -> F -> bool;
  py_round : F -> result Z;  (* round(x): nearest integer, ties to even *)
  py_int : F -> result Z     (* int(x): truncation towards zero *)
}.

Declare Scope num_scope.
Delimit Scope num_scope with num.
Infix "+" := add : num_scope.
Infix "-" := sub : num_scope.
Infix "*" := mul : num_scope.
Infix "/" := div : num_scope.
Infix "<?" := ltb : num_scope.
Infix "<=?" := leb : num_scope.
Infix "=?" := eqb : num_scope.

(** The comparisons of the script order the numbers: what the search
    through a table relies on.  A NaN compares false with everything and
    satisfies these laws. *)
Class Ordered (F : Type) `{Number F} : Prop := {
  lt_le_trans : forall a b c : F, ltb a b = true -> leb b c = true -> ltb a c = true;
  le_lt_trans : forall a b c : F, leb a b = true -> ltb b c = true -> ltb a c = true;
  lt_le_weak : forall a b : F, ltb a b = true -> leb a b = true;
  lt_not_ge : forall a b : F, ltb a b = true -> leb b a = false
}.

(** *** Exact rationals *)

Module Exact.

(** round-half-to-even, the tie-breaking of Python 3's [round] *)
Definition round_half_even (x : Q) : Z :=
  let f := Qfloor x in
  match Qcompare (x - inject_Z f) (1 # 2) with
  | Lt => f
  | Eq => if Z.even f then f else f + 1
  | Gt => f + 1
  end.

(** truncation towards zero *)
Definition truncate (x : Q) : Z := Z.quot (Qnum x) (Z.pos (Qden x)).

Definition Qlt_bool (x y : Q) : bool := negb (Qle_bool y x).

#[global] Instance number : Number Q := {|
  lit := fun q => q;
  of_int := inject_Z;
  add := Qplus;
  sub := Qminus;
  mul := Qmult;
  div := Qdiv;
  ltb := Qlt_bool;
  leb := Qle_bool;
  eqb := Qeq_bool;
  py_round := fun x => Ok (round_half_even x);
  py_int := fun x => Ok (truncate x)
|}.

End Exact.

(** *** IEEE-754 binary64 *)

Module Binary64.

(** The exact value of a finite double. *)
Definition to_Q (s : bool) (m : positive) (e : Z) : Q :=
  let mag :=
    match e with
    | Z0 => inject_Z (Z.pos m)
    | Z.pos p => inject_Z (Z.pos m * 2 ^ Z.pos p)
    | Z.neg p => Z.pos m # (2 ^ p)
    end in
  if s then Qopp mag else mag.

Definition to_integer (f : Q -> Z) (x : float) : result Z :=
  match Prim2SF x with
  | S754_zero _ => Ok 0
  | S754_finite s m e => Ok (f (to_Q s m e))
  | S754_infinity _ => Raise OverflowError
  | S754_nan => Raise ValueError
  end.

(** The exact value of a double; 0 for what is not finite. *)
Definition value (x : float) : Q :=
  match Prim2SF x with
  | S754_finite s m e => to_Q s m e
  | _ => 0
  end.

(** The double nearest to an integer, ties to even: the conversion of a
    Python [int] that meets a [float] in an operation.  A 63-bit integer
    is converted by the machine, a larger one by the rounding of the
    IEEE-754 specification.  Beyond the largest double the result is
    infinite where Python raises [OverflowError]; the integers the script
    converts are those of its tables and the [int(...)] of a finite
    double, which are below that. *)
Definition of_Z (z : Z) : float :=
  if Z.abs z <? 2 ^ 62 then
    match z with
    | Z0 => PrimFloat.of_uint63 0
    | Z.pos _ => PrimFloat.of_uint63 (Uint63.of_Z z)
    | Z.neg p => PrimFloat.opp (PrimFloat.of_uint63 (Uint63.of_Z (Z.pos p)))
    end
  else SF2Prim (binary_normalize prec emax z 0 false).

(** A decimal literal [n/d] denotes the double nearest to it, which is the
    correctly rounded quotient of the doubles [n] and [d]. *)
Definition of_decimal (q : Q) : float :=
  PrimFloat.div (of_Z (Qnum q)) (of_Z (Z.pos (Qden q))).

#[global] Instance number : Number float := {|
  lit := of_decimal;
  of_int := of_Z;
  add := PrimFloat.add;
  sub := PrimFloat.sub;
  mul := PrimFloat.mul;
  div := PrimFloat.div;
  ltb := PrimFloat.ltb;
  leb := PrimFloat.leb;
  eqb := PrimFloat.eqb;
  py_round := to_integer Exact.round_half_even;
  py_int := to_integer Exact.truncate
|}.

End Binary64.

(** ** [AIRNOW_AQI_GUIDE] and [get_airnow_aqi_info] *)

Record category : Type := {
  range : Z * Z;
  level : string;
  color : string;
  description : string
}.

Definition AIRNOW_AQI_GUIDE : list category := [
  {| range := (0, 50); level := "Good"; color := "#00e400";
     description := "Air quality is satisfactory, and air pollution poses little or no risk." |};
  {| range := (51, 100); level := "Moderate"; color := "#ffff00";
     description := "Air quality is acceptable. However, there may be a risk for some people, particularly those who are unusually sensitive to air pollution." |};
  {| range := (101, 150); level := "Unhealthy for Sensitive Groups"; color := "#ff7e00";
     description := "Members of sensitive groups may experience health effects. The general public is less likely to be affected." |};
  {| range := (151, 200); level := "Unhealthy"; color := "#ff0000";
     description := "Some members of the general public may experience health effects; members of sensitive groups may experience more serious health effects." |};
  {| range := (201, 300); level := "Very Unhealthy"; color := "#8f3f97";
     description := "Health alert: The risk of health effects is increased for everyone." |};
  {| range := (301, 10000); level := "Hazardous"; color := "#7e0023";
     description := "Health warning of emergency conditions: everyone is more likely to be affected." |}
]%string.

(** [low <= aqi_value <= high] *)
Definition in_range (aqi_value : Z) (c : category) : bool :=
  let '(low, high) := range c in (low <=? aqi_value) && (aqi_value <=? high).

(** [AIRNOW_AQI_GUIDE[-1]] *)
Definition last_category : category :=
  last AIRNOW_AQI_GUIDE
       {| range := (0, 0); level := ""; color := ""; description := "" |}.

Definition get_airnow_aqi_info (aqi_value : Z) : category :=
  match find (in_range aqi_value) AIRNOW_AQI_GUIDE with
  | Some c => c
  | None => last_category
  end.

(** ** Python's [max] *)

(** [max(xs)] over integers: the first largest item; [ValueError] on an
    empty sequence. *)
Fixpoint max_from (best : Z) (xs : list Z) : Z :=
  match xs with
  | [] => best
  | x :: xs' => max_from (if best <? x then x else best) xs'
  end.

Definition py_max (xs : list Z) : result Z :=
  match xs with
  | [] => Raise ValueError
  | x :: xs' => Ok (max_from x xs')
  end.

(** [max(xs, key=f)]: the first item whose key is largest; an item replaces
    the current best only when its key is strictly greater.  [f] is
    [aqi_v.get], which answers [None] for a missing key; ordering [None]
    against an integer raises [TypeError]. *)
Definition py_gt (a b : option Z) : result bool :=
  match a, b with
  | Some x, Some y => Ok (y <? x)
  | _, _ => Raise TypeError
  end.

Fixpoint max_key_from {A : Type} (f : A -> option Z) (best : A) (xs : list A)
  : result A :=
  match xs with
  | [] => Ok best
  | x :: xs' =>
      b <- py_gt (f x) (f best) ;;
      max_key_from f (if b : bool then x else best) xs'
  end.

Definition py_max_key {A : Type} (f : A -> option Z) (xs : list A) : result A :=
  match xs with
  | [] => Raise ValueError
  | x :: xs' => max_key_from f x xs'
  end.

(** ** The engine *)

Section Engine.

Context {F : Type} `{Number F}.
Local Open Scope num_scope.

(** *** [BREAKPOINTS] and [calculate_pollutant_aqi] *)

(** One row [(bp_low, bp_hi, i_low, i_hi)]. *)
Definition breakpoint : Type := (F * F * Z * Z)%type.

Definition bp (bp_low bp_hi : Q) (i_low i_hi : Z) : breakpoint :=
  (lit bp_low, lit bp_hi, i_low, i_hi).

Definition bp_low (row : breakpoint) : F := let '(l, _, _, _) := row in l.
Definition bp_hi (row : breakpoint) : F := let '(_, h, _, _) := row in h.
Definition i_low (row : breakpoint) : Z := let '(_, _, i, _) := row in i.
Definition i_hi (row : breakpoint) : Z := let '(_, _, _, i) := row in i.

Definition BREAKPOINTS : dict (list breakpoint) := [
  ("o3_ppm", [bp 0.000 0.054 0 50; bp 0.055 0.070 51 100; bp 0.071 0.085 101 150;
              bp 0.086 0.105 151 200; bp 0.106 0.200 201 300; bp 0.201 0.404 301 400]);
  ("pm2_5", [bp 0.0 9.0 0 50; bp 9.1 35.4 51 100; bp 35.5 55.4 101 150;
             bp 55.5 125.4 151 200; bp 125.5 225.4 201 300; bp 225.5 325.4 301 400]);
  ("pm10", [bp 0 54 0 50; bp 55 154 51 100; bp 155 254 101 150;
            bp 255 354 151 200; bp 355 424 201 300; bp 425 504 301 400]);
  ("co_ppm", [bp 0.0 4.4 0 50; bp 4.5 9.4 51 100; bp 9.5 12.4 101 150;
              bp 12.5 15.4 151 200; bp 15.5 30.4 201 300; bp 30.5 40.4 301 400]);
  ("so2_ppb", [bp 0 35 0 50; bp 36 75 51 100; bp 76 185 101 150;
               bp 186 304 151 200; bp 305 604 201 300; bp 605 804 301 400]);
  ("no2_ppb", [bp 0 53 0 50; bp 54 100 51 100; bp 101 360 101 150;
               bp 361 649 151 200; bp 650 1249 201 300; bp 1250 1649 301 400])
]%string.

(** [((i_hi - i_low) / (bp_hi - bp_low)) * (concentration - bp_low) + i_low] *)
Definition linear (row : breakpoint) (concentration : F) : F :=
  let '(bp_low, bp_hi, i_low, i_hi) := row in
  (of_int (i_hi - i_low)%Z / (bp_hi - bp_low)) * (concentration - bp_low)
  + of_int i_low.

(** The [for] loop: [Some r] when an iteration returns [r], [None] when the
    loop runs to its end. *)
Fixpoint scan (breakpoints : list breakpoint) (concentration : F)
  : option (result Z) :=
  match breakpoints with
  | [] => None
  | ((bp_low, bp_hi, i_low, i_hi) as row) :: rest =>
      if (bp_low <=? concentration) && (concentration <=? bp_hi) then
        if (bp_hi - bp_low) =? lit 0 then Some (Ok i_low)
        else Some (py_round (linear row concentration))
      else scan rest concentration
  end.

(** The code after the loop, on [breakpoints[-1]]. *)
Definition beyond (row : breakpoint) (concentration : F) : result Z :=
  let '(bp_low, bp_hi, i_low, i_hi) := row in
  if bp_hi <? concentration then
    if (bp_hi - bp_low) =? lit 0 then Ok i_hi
    else py_round (linear row concentration)
  else Ok 0%Z.

Definition interpolate (breakpoints : list breakpoint) (concentration : F)
  : result Z :=
  match breakpoints with
  | [] => Ok 0%Z                                 (* [if not breakpoints] *)
  | row :: rest =>
      match scan breakpoints concentration with
      | Some r => r
      | None => beyond (last rest row) concentration
      end
  end.

Definition calculate_pollutant_aqi (pollutant_key : string) (concentration : F)
  : result Z :=
  if concentration <? lit 0 then Ok 0%Z
  else
    match dict_get BREAKPOINTS pollutant_key with
    | None => Ok 0%Z                             (* [if not breakpoints] *)
    | Some breakpoints => interpolate breakpoints concentration
    end.

(** *** Unit conversion and truncation *)

Definition MW_O3 : F := lit 48.0.
Definition MW_CO : F := lit 28.01.
Definition MW_SO2 : F := lit 64.07.
Definition MW_NO2 : F := lit 46.01.
Definition MOLAR_VOLUME : F := lit 24.45.

Definition o3_raw_ppm (o3_v : F) : F := (o3_v * MOLAR_VOLUME) / (MW_O3 * lit 1000).
Definition co_raw_ppm (co_v : F) : F := (co_v * MOLAR_VOLUME) / (MW_CO * lit 1000).
Definition so2_raw_ppb (so2_v : F) : F := (so2_v * MOLAR_VOLUME) / MW_SO2.
Definition no2_raw_ppb (no2_v : F) : F := (no2_v * MOLAR_VOLUME) / MW_NO2.

(** [int(x * scale) / scale] *)
Definition truncate_to (scale : Q) (x : F) : result F :=
  k <- py_int (x * lit scale) ;; Ok (of_int k / lit scale).

Definition o3_c (o3_v : F) : result F := truncate_to 1000 (o3_raw_ppm o3_v).
Definition pm25_c (pm25_v : F) : result F := truncate_to 10 pm25_v.
Definition pm10_c (pm10_v : F) : result F := k <- py_int pm10_v ;; Ok (of_int k).
Definition co_c (co_v : F) : result F := truncate_to 10 (co_raw_ppm co_v).
Definition so2_c (so2_v : F) : result F := k <- py_int (so2_raw_ppb so2_v) ;; Ok (of_int k).
Definition no2_c (no2_v : F) : result F := k <- py_int (no2_raw_ppb no2_v) ;; Ok (of_int k).

(** *** Aggregation *)

(** [overall_aqi = max(aqi_v.values()) if aqi_v else 0] *)
Definition overall_aqi (aqi_v : dict Z) : result Z :=
  match aqi_v with
  | [] => Ok 0%Z
  | _ :: _ => py_max (values aqi_v)
  end.

(** [dominant_pollutant_key = max(aqi_v, key=aqi_v.get)] *)
Definition dominant_pollutant_key (aqi_v : dict Z) : result string :=
  py_max_key (dict_get aqi_v) (keys aqi_v).

(** The dictionary [aqi_v] of the six sub-indices, from the [components] of
    one observation; a missing component reads as 0. *)
Definition aqi_v (components : dict F) : result (dict Z) :=
  let o3_v := dict_get_default components "o3" (lit 0) in
  let pm25_v := dict_get_default components "pm2_5" (lit 0) in
  let pm10_v := dict_get_default components "pm10" (lit 0) in
  let co_v := dict_get_default components "co" (lit 0) in
  let so2_v := dict_get_default components "so2" (lit 0) in
  let no2_v := dict_get_default components "no2" (lit 0) in
  o3 <- o3_c o3_v ;;
  pm25 <- pm25_c pm25_v ;;
  pm10 <- pm10_c pm10_v ;;
  co <- co_c co_v ;;
  so2 <- so2_c so2_v ;;
  no2 <- no2_c no2_v ;;
  a1 <- calculate_pollutant_aqi "o3_ppm" o3 ;;
  a2 <- calculate_pollutant_aqi "pm2_5" pm25 ;;
  a3 <- calculate_pollutant_aqi "pm10" pm10 ;;
  a4 <- calculate_pollutant_aqi "co_ppm" co ;;
  a5 <- calculate_pollutant_aqi "so2_ppb" so2 ;;
  a6 <- calculate_pollutant_aqi "no2_ppb" no2 ;;
  Ok [("o3_ppm", a1); ("pm2_5", a2); ("pm10", a3);
      ("co_ppm", a4); ("so2_ppb", a5); ("no2_ppb", a6)]%string.

(** What the page shows for one observation. *)
Record report : Type := {
  sub_indices : dict Z;
  overall : Z;
  airnow_info : category;
  dominant : string
}.

Definition analyse (components : dict F) : result report :=
  d <- aqi_v components ;;
  o <- overall_aqi d ;;
  k <- dominant_pollutant_key d ;;
  Ok {| sub_indices := d; overall := o;
        airnow_info := get_airnow_aqi_info o; dominant := k |}.

(** *** Reading a table *)

(** [breakpoints[-1]], the top bracket of a table. *)
Definition top (breakpoints : list breakpoint) : option breakpoint :=
  match breakpoints with
  | [] => None
  | row :: rest => Some (last rest row)
  end.

(** [bp_low <= concentration <= bp_hi] *)
Definition within (row : breakpoint) (concentration : F) : bool :=
  (bp_low row <=? concentration) && (concentration <=? bp_hi row).

(** [(bp_hi - bp_low) == 0] *)
Definition degenerate (row : breakpoint) : bool :=
  (bp_hi row - bp_low row) =? lit 0.

(** Brackets start at a non-negative concentration, are not reversed and
    each one ends before every later one starts. *)
Fixpoint ordered (breakpoints : list breakpoint) : bool :=
  match breakpoints with
  | [] => true
  | row :: rest =>
      (lit 0 <=? bp_low row) && (bp_low row <=? bp_hi row)
      && forallb (fun row' => bp_hi row <? bp_low row') rest
      && ordered rest
  end.

End Engine.

Arguments breakpoint F : clear implicits.
Arguments report : clear implicits.

(** ** Vocabulary of the statements *)

(** The six pollutant keys, in the order the dictionary [aqi_v] lists them. *)
Definition POLLUTANT_ORDER : list string :=
  ["o3_ppm"; "pm2_5"; "pm10"; "co_ppm"; "so2_ppb"; "no2_ppb"]%string.

(** [aqi_v] as the script builds it from six sub-indices. *)
Definition six (a1 a2 a3 a4 a5 a6 : Z) : dict Z :=
  [("o3_ppm", a1); ("pm2_5", a2); ("pm10", a3);
   ("co_ppm", a4); ("so2_ppb", a5); ("no2_ppb", a6)]%string.

(** The [components] of one observation, in micrograms per cubic metre. *)
Definition readings {F : Type} `{Number F} (o3 pm2_5 pm10 co so2 no2 : Q) : dict F :=
  [("o3", lit o3); ("pm2_5", lit pm2_5); ("pm10", lit pm10);
   ("co", lit co); ("so2", lit so2); ("no2", lit no2)]%string.

(** The normalisation of a gaseous pollutant as the specification words
    it, computed with the numbers of the script:
    [(raw_value * MOLAR_VOLUME) / (MOLAR_MASS * scale)], then truncated by
    [int] to [decimals] decimals, to an integer when there is none. *)
Definition normalized {F : Type} `{Number F}
  (molar_mass scale : Q) (decimals : nat) (raw_value : F) : result F :=
  let concentration :=
    div (mul raw_value (lit 24.45)) (mul (lit molar_mass) (lit scale)) in
  match decimals with
  | O => k <- py_int concentration ;; Ok (of_int k)
  | S _ =>
      let unit := lit (inject_Z (10 ^ Z.of_nat decimals)) in
      k <- py_int (mul concentration unit) ;; Ok (div (of_int k) unit)
  end.

(** A row of a table, its literals read as doubles. *)
Definition to_double (row : breakpoint Q) : breakpoint float :=
  let '(l, h, i, j) := row in (lit l, lit h, i, j).

(** The truncated concentration number [k] of the grid [1/d], as the
    script computes it: [int(...) / 1000.0] for O3, [int(...) / 10.0] for
    PM2.5 and CO, and the integer [int(...)] itself for PM10, SO2 and
    NO2. *)
Definition truncated {F : Type} `{Number F} (d : positive) (k : Z) : F :=
  match d with
  | xH => of_int k
  | _ => div (of_int k) (lit (inject_Z (Z.pos d)))
  end.

(** The claim that an empty input makes a computation fail. *)
Definition fails {A : Type} (r : result A) : Prop := exists e, r = Raise e.

(** The categories of the guide whose range contains a value. *)
Definition matching (aqi_value : Z) : list category :=
  filter (in_range aqi_value) AIRNOW_AQI_GUIDE.

Module Exact_spec.

Local Open Scope Q_scope.

Definition row : Type := breakpoint Q.

(** A concentration lies inside a bracket. *)
Definition inside (r : row) (c : Q) : Prop := bp_low r <= c /\ c <= bp_hi r.

(** A number with at most the decimals of the grid [1/d]. *)
Definition on_grid (d : positive) (x : Q) : bool :=
  Qeq_bool x (Qfloor (x * inject_Z (Z.pos d)) # d).

(** The brackets of a table read on the grid [1/d]: each is proper, with
    increasing indices, and the next one starts one grid step after it,
    at a larger index. *)
Fixpoint chain (d : positive) (rows : list row) : bool :=
  match rows with
  | [] => true
  | r :: rest =>
      Exact.Qlt_bool (bp_low r) (bp_hi r) && (i_low r <? i_hi r)%Z
      && on_grid d (bp_low r) && on_grid d (bp_hi r)
      && match rest with
         | [] => true
         | r' :: _ => Qeq_bool (bp_low r') (bp_hi r + (1 # d)) && (i_hi r <? i_low r')%Z
         end
      && chain d rest
  end.

(** The table starts at concentration 0 with a non-negative index. *)
Definition starts_at_zero (rows : list row) : bool :=
  match rows with
  | [] => false
  | r :: _ => Qeq_bool (bp_low r) 0 && (0 <=? i_low r)%Z
  end.

(** The decimals each concentration is truncated to before it is looked
    up, as a denominator: [o3_c] is an integer divided by 1000.0, [pm25_c]
    and [co_c] an integer divided by 10.0, the others are integers. *)
Definition PRECISION : dict positive :=
  [("o3_ppm", 1000); ("pm2_5", 10); ("pm10", 1);
   ("co_ppm", 10); ("so2_ppb", 1); ("no2_ppb", 1)]%string%positive.

(** Nearest integer, a tie going to the even neighbour. *)
Definition nearest_ties_to_even (round : Q -> Z) : Prop :=
  forall x : Q,
    Qabs (x - inject_Z (round x)) <= 1 # 2 /\
    (Qabs (x - inject_Z (round x)) == 1 # 2 -> Z.even (round x) = true).


(** Truncation to [n] decimals, as the specification words it. *)
Definition truncate_decimals (n : nat) (x : Q) : Q :=
  inject_Z (Exact.truncate (x * inject_Z (10 ^ Z.of_nat n)))
  / inject_Z (10 ^ Z.of_nat n).

(** The normalised concentration of a gaseous pollutant, as the
    specification words it: [(raw * MOLAR_VOLUME) / (MOLAR_MASS * scale)],
    truncated to [decimals]. *)
Definition normalize (molar_mass scale : Q) (decimals : nat) (raw : Q) : Q :=
  truncate_decimals decimals ((raw * 24.45) / (molar_mass * scale)).

End Exact_spec.

Import Exact_spec.

(** ** The truncated concentrations in double precision *)

(** How far the tables are evaluated in double precision: the number of
    the last truncated concentration, which lies past the top bracket and
    past the sub-index 500 (0.700 ppm of O3, 500.0 micrograms of PM2.5,
    700 of PM10, 60.0 ppm of CO, 1100 ppb of SO2, 2100 ppb of NO2). *)
Definition LIMIT : dict Z :=
  [("o3_ppm", 700); ("pm2_5", 5000); ("pm10", 700);
   ("co_ppm", 600); ("so2_ppb", 1100); ("no2_ppb", 2100)]%string%Z.

(** The integers [0 .. n]. *)
Definition upto (n : Z) : list Z := map Z.of_nat (seq 0 (S (Z.to_nat n))).

Definition same_result (r1 r2 : result Z) : bool :=
  match r1, r2 with
  | Ok a, Ok b => (a =? b)%Z
  | _, _ => false
  end.

(** At the truncated concentration number [k] the engine in double
    precision and the engine in exact arithmetic compare the concentration
    alike with every breakpoint of the table and return the same
    sub-index; the double is not negative and the next one is larger. *)
Definition agree (pollutant_key : string) (d : positive) (rows : list row) (k : Z)
  : bool :=
  let x : float := truncated d k in
  let q : Q := truncated d k in
  same_result (calculate_pollutant_aqi pollutant_key x)
              (calculate_pollutant_aqi pollutant_key q)
  && forallb (fun r =>
                Bool.eqb (leb (bp_low (to_double r)) x) (leb (bp_low r) q)
                && Bool.eqb (leb x (bp_hi (to_double r))) (leb q (bp_hi r)))
             rows
  && negb (ltb x (lit 0))
  && ltb x (truncated d (k + 1)).

(** A double the tables are evaluated on: a negative one, or a truncated
    concentration from 0 to the limit. *)
Definition evaluated (d : positive) (limit : Z) (c : float) : Prop :=
  ltb c (lit 0) = true
  \/ exists k : Z, (0 <= k <= limit)%Z /\ c = truncated d k.

(** ** The rest of the script *)

(** [POLLUTANT_NAMES] *)
Definition POLLUTANT_NAMES : dict string :=
  [("o3_ppm", "Ozone (O₃)"); ("pm2_5", "PM₂.₅"); ("pm10", "PM₁₀");
   ("co_ppm", "CO"); ("so2_ppb", "SO₂"); ("no2_ppb", "NO₂")]%string.

(** [POLLUTANT_NAMES.get(dominant_pollutant_key, "N/A")], the "Dominant
    Pollutant" metric of the page. *)
Definition dominant_name (dominant_pollutant_key : string) : string :=
  dict_get_default POLLUTANT_NAMES dominant_pollutant_key "N/A"%string.

(** The six components the script reads. *)
Definition COMPONENT_KEYS : list string :=
  ["o3"; "pm2_5"; "pm10"; "co"; "so2"; "no2"]%string.

(** [components.get(k, 0)] *)
Definition reading {F : Type} `{Number F} (components : dict F) (k : string) : F :=
  dict_get_default components k (lit 0).

(** *** Requests

    [requests.get], [raise_for_status] and [json()] are the script's only
    contact with the network: what they bring back is an input of the
    model. *)

Inductive fetched (A : Type) : Type :=
| RequestException              (* raised by the request *)
| Body (data : A).              (* the decoded JSON *)
Arguments RequestException {A}.
Arguments Body {A} data.

(** What stops the script outside the engine. *)
Inductive script_error : Type :=
| KeyError (key : string)       (* a JSON object lacks a key *)
| IndexError                    (* list index out of range *)
| CannotUnpackNone              (* TypeError: cannot unpack non-iterable NoneType object *)
| Engine (e : exn).             (* raised by [round] or [int] *)

Inductive outcome (A : Type) : Type :=
| Done (a : A)
| Crash (e : script_error).
Arguments Done {A} a.
Arguments Crash {A} e.

Section Script.

Context {F : Type} `{Number F}.
Local Open Scope num_scope.

(** The truth value of a number: [x] is true unless it equals 0. *)
Definition truthy (x : F) : bool := negb (x =? lit 0).

(** *** [geocode_city]

    A match of the geocoding service is a JSON object; its numeric fields
    are a dictionary.  The function returns a pair, [(None, None)] after a
    [RequestException], or nothing at all ([None]) when the list of matches
    is empty. *)
Definition geocode_city (response : fetched (list (dict F)))
  : outcome (option (option F * option F)) :=
  match response with
  | RequestException => Done (Some (None, None))
  | Body [] => Done None                       (* falls off the end *)
  | Body (place :: _) =>
      match dict_get place "lat" with
      | None => Crash (KeyError "lat")
      | Some lat =>
          match dict_get place "lon" with
          | None => Crash (KeyError "lon")
          | Some lon => Done (Some (Some lat, Some lon))
          end
      end
  end.

(** *** The search button

    [st.session_state]: the centre of the map and its zoom. *)
Record session : Type := {
  center : F * F;
  zoom : Z
}.

(** [if lat and lon] *)
Definition both_truthy (lat lon : option F) : option (F * F) :=
  match lat, lon with
  | Some x, Some y => if truthy x && truthy y then Some (x, y) else None
  | _, _ => None
  end.

(** The body of [if st.button("Search")]: the new session and the errors
    written on the page. *)
Definition search (s : session) (search_query : string)
                  (response : fetched (list (dict F)))
  : outcome (session * list string) :=
  if String.eqb search_query "" then Done (s, [])
  else
    match geocode_city response with
    | Crash e => Crash e
    | Done None => Crash CannotUnpackNone      (* [lat, lon = None] *)
    | Done (Some (lat, lon)) =>
        match both_truthy lat lon with
        | Some (x, y) => Done ({| center := (x, y); zoom := 13 |}, [])
        | None =>
            Done (s, [("City '" ++ search_query ++ "' not found.")%string])
        end
    end.

(** *** [fetch_air_quality_data] and the page

    The air-pollution answer is a JSON object whose ['list'] holds objects
    with a dictionary of ['components']; the reverse-geocoding answer is a
    list of objects of which the ['name'] is read. *)
Definition air_json : Type := dict (list (dict (dict F))).
Definition geo_json : Type := list (dict string).

(** Both requests are sent, then both are checked: one failure loses both
    answers; the boolean tells whether [st.error] was called.  The cache of
    [st.cache_data] only replays an answer and is not modelled. *)
Definition fetch_air_quality_data
  (air_res : fetched air_json) (geo_res : fetched geo_json)
  : option air_json * option geo_json * bool :=
  match air_res, geo_res with
  | Body air_data, Body geo_data => (Some air_data, Some geo_data, false)
  | _, _ => (None, None, true)
  end.

(** What the page shows under the map. *)
Inductive view : Type :=
| Waiting                                   (* the warning of the [else] branch *)
| Analysis (location_name : string) (r : report).

Definition nonempty {A : Type} (l : list A) : bool :=
  match l with [] => false | _ :: _ => true end.

(** [air_data['list'][0]['components']] *)
Definition components_of (air_data : air_json) : outcome (dict F) :=
  match dict_get air_data "list" with
  | None => Crash (KeyError "list")
  | Some [] => Crash IndexError
  | Some (entry :: _) =>
      match dict_get entry "components" with
      | None => Crash (KeyError "components")
      | Some components => Done components
      end
  end.

(** The first [if air_data and geo_data] block, lines 105 to 139: the
    analysis behind the banner and the marker, nothing when an answer is
    missing or empty.  The dominant pollutant is only computed in the
    second block, from a dictionary of six keys, where [max] cannot
    raise. *)
Definition analysed (air_res : fetched air_json) (geo_res : fetched geo_json)
  : outcome (option (string * report)) :=
  match fetch_air_quality_data air_res geo_res with
  | (Some air_data, Some geo_data, _) =>
      match geo_data with
      | place :: _ =>
          if nonempty air_data then
            match components_of air_data with
            | Crash e => Crash e
            | Done components =>
                match analyse components with
                | Raise e => Crash (Engine e)
                | Ok r =>
                    Done (Some (dict_get_default place "name"
                                                 "Unknown Location"%string,
                                r))
                end
            end
          else Done None
      | [] => Done None
      end
  | _ => Done None
  end.

(** Lines 141 to 145.  [st_folium] answers with the last click on the map,
    if there is one, as a latitude and a longitude; a click elsewhere than
    the current centre moves the centre there. *)
Definition clicked (s : session) (last_clicked : option (F * F)) : option session :=
  match last_clicked with
  | None => None
  | Some (new_lat, new_lon) =>
      let '(current_lat, current_lon) := center s in
      if (new_lat =? current_lat) && (new_lon =? current_lon) then None
      else Some {| center := (new_lat, new_lon); zoom := zoom s |}
  end.

(** How a run of the script ends: the page is shown to its end, or
    [st.rerun()] stops the run and a new one starts with the session. *)
Inductive run : Type :=
| Shown (v : view)
| Rerun (s : session).

(** The page from line 101 on: the first block, the map and its click,
    then the second [if air_data and geo_data] block with its [else]. *)
Definition page (s : session)
                (air_res : fetched air_json) (geo_res : fetched geo_json)
                (last_clicked : option (F * F))
  : outcome run :=
  match analysed air_res geo_res with
  | Crash e => Crash e
  | Done shown =>
      match clicked s last_clicked with
      | Some s' => Done (Rerun s')
      | None =>
          Done (Shown match shown with
                      | Some (location_name, r) => Analysis location_name r
                      | None => Waiting
                      end)
      end
  end.

End Script.

(** The error written by the search box. *)
Definition not_found (search_query : string) : string :=
  ("City '" ++ search_query ++ "' not found.")%string.

Arguments session F : clear implicits.
Arguments air_json F : clear implicits.
Arguments run F : clear implicits.

(** * Searching a table

    What holds of [calculate_pollutant_aqi] for any numbers whose
    comparisons form an order. *)

Section Tables.

Context {F : Type} {number : Number F} {order : Ordered F}.
Local Open Scope num_scope.

Lemma le_not_gt (a b : F) : (a <=? b) = true -> (b <? a) = false.
Proof.
  intro L. destruct (b <? a) eqn:G; [|reflexivity].
  apply lt_not_ge in G. congruence.
Qed.

Lemma linear_eq (r : breakpoint F) (c : F) :
  linear r c
  = (of_int (i_hi r - i_low r)%Z / (bp_hi r - bp_low r)) * (c - bp_low r)
    + of_int (i_low r).
Proof. destruct r as [[[lo hi] il] ih]. reflexivity. Qed.

Lemma scan_cons (r : breakpoint F) (rest : list (breakpoint F)) (c : F) :
  scan (r :: rest) c
  = if within r c then
      if degenerate r then Some (Ok (i_low r))
      else Some (py_round (linear r c))
    else scan rest c.
Proof. destruct r as [[[lo hi] il] ih]. reflexivity. Qed.

Lemma beyond_eq (r : breakpoint F) (c : F) :
  beyond r c
  = if bp_hi r <? c then
      if degenerate r then Ok (i_hi r) else py_round (linear r c)
    else Ok 0%Z.
Proof. destruct r as [[[lo hi] il] ih]. reflexivity. Qed.

Lemma interpolate_eq (rows : list (breakpoint F)) (c : F) :
  interpolate rows c
  = match top rows with
    | None => Ok 0%Z
    | Some t => match scan rows c with
                | Some r => r
                | None => beyond t c
                end
    end.
Proof. destruct rows; reflexivity. Qed.

Lemma calculate_pollutant_aqi_eq (pollutant_key : string) (c : F) :
  calculate_pollutant_aqi pollutant_key c
  = if c <? lit 0 then Ok 0%Z
    else match dict_get BREAKPOINTS pollutant_key with
         | None => Ok 0%Z
         | Some rows => interpolate rows c
         end.
Proof. reflexivity. Qed.

Lemma last_cons {A : Type} (a d : A) (l : list A) : last (a :: l) d = last l a.
Proof.
  revert a d. induction l as [|b l IH]; intros a d; [reflexivity|].
  change (last (a :: b :: l) d) with (last (b :: l) d).
  rewrite !IH. reflexivity.
Qed.

Lemma last_map {A B : Type} (f : A -> B) (l : list A) (d : A) :
  last (map f l) (f d) = f (last l d).
Proof.
  induction l as [|a l IH]; [reflexivity|].
  destruct l as [|b l]; [reflexivity | exact IH].
Qed.

Lemma top_In (rows : list (breakpoint F)) (t : breakpoint F) :
  top rows = Some t -> In t rows.
Proof.
  destruct rows as [|r rest]; [discriminate|]. intros [= <-].
  revert r. induction rest as [|r1 rest IH]; intro r; [left; reflexivity|].
  rewrite last_cons. right. apply IH.
Qed.

Lemma dict_get_In {V : Type} (d : dict V) (k : string) (v : V) :
  dict_get d k = Some v -> In (k, v) d.
Proof.
  induction d as [|[k' v'] d IH]; simpl; [discriminate|].
  destruct (String.eqb k' k) eqn:E.
  - intros [= ->]. apply String.eqb_eq in E. subst. left; reflexivity.
  - intro G. right. apply IH, G.
Qed.

(** **** The loop *)

Lemma scan_none (rows : list (breakpoint F)) (c : F) :
  (forall r, In r rows -> within r c = false) -> scan rows c = None.
Proof.
  induction rows as [|r rest IH]; intro N; [reflexivity|].
  rewrite scan_cons, N by (left; reflexivity).
  apply IH. intros r' I. apply N. right. exact I.
Qed.

Lemma ordered_cons (r : breakpoint F) (rest : list (breakpoint F)) :
  ordered (r :: rest) = true ->
  (lit 0 <=? bp_low r) = true /\ (bp_low r <=? bp_hi r) = true
  /\ (forall r', In r' rest -> (bp_hi r <? bp_low r') = true)
  /\ ordered rest = true.
Proof.
  simpl. rewrite !andb_true_iff, forallb_forall.
  intros [[[A B] C] D]. repeat split; assumption.
Qed.

Lemma ordered_In (rows : list (breakpoint F)) (r : breakpoint F) :
  ordered rows = true -> In r rows ->
  (lit 0 <=? bp_low r) = true /\ (bp_low r <=? bp_hi r) = true.
Proof.
  induction rows as [|r0 rest IH]; intros O I; [contradiction|].
  apply ordered_cons in O as (A & B & _ & O).
  destruct I as [<- | I]; auto.
Qed.

(** In an ordered table the loop returns at the bracket that holds the
    concentration. *)
Lemma scan_found (rows : list (breakpoint F)) (r : breakpoint F) (c : F) :
  ordered rows = true -> In r rows -> within r c = true ->
  scan rows c
  = Some (if degenerate r then Ok (i_low r) else py_round (linear r c)).
Proof.
  induction rows as [|r0 rest IH]; intros O I W; [contradiction|].
  apply ordered_cons in O as (_ & _ & B & O).
  rewrite scan_cons.
  destruct I as [-> | I].
  - rewrite W. destruct (degenerate r); reflexivity.
  - assert (N : within r0 c = false).
    { unfold within in *. apply andb_true_iff in W as [L _].
      rewrite (lt_not_ge _ _ (lt_le_trans _ _ _ (B r I) L)).
      apply andb_false_r. }
    rewrite N. apply IH; assumption.
Qed.

(** A concentration inside a bracket of an ordered table is not negative. *)
Lemma within_not_negative (rows : list (breakpoint F)) (r : breakpoint F) (c : F) :
  ordered rows = true -> In r rows -> within r c = true -> (c <? lit 0) = false.
Proof.
  intros O I W. destruct (ordered_In _ _ O I) as [Z _].
  apply andb_true_iff in W as [L _].
  destruct (c <? lit 0) eqn:N; [|reflexivity].
  pose proof (lt_not_ge _ _ (lt_le_trans _ _ _ N Z)). congruence.
Qed.

(** Past the top bracket of an ordered table, no bracket holds the
    concentration. *)
Lemma above_all (rest : list (breakpoint F)) :
  forall (r0 : breakpoint F) (c : F),
    ordered (r0 :: rest) = true -> (bp_hi (last rest r0) <? c) = true ->
    forall r, In r (r0 :: rest) -> (c <=? bp_hi r) = false.
Proof.
  induction rest as [|r1 rest IH]; intros r0 c O A r I.
  - destruct I as [<- | []]. apply lt_not_ge, A.
  - rewrite last_cons in A. apply ordered_cons in O as (_ & _ & B & O).
    destruct I as [<- | I]; [|apply (IH r1 c O A), I].
    destruct (c <=? bp_hi r0) eqn:U; [exfalso | reflexivity].
    pose proof (ordered_cons _ _ O) as (_ & P & _ & _).
    pose proof (le_lt_trans _ _ _ U (B r1 (or_introl eq_refl))) as L1.
    pose proof (lt_le_weak _ _ (lt_le_trans _ _ _ L1 P)) as L2.
    pose proof (IH r1 c O A r1 (or_introl eq_refl)). congruence.
Qed.

Lemma scan_none_above (rows : list (breakpoint F)) (t : breakpoint F) (c : F) :
  ordered rows = true -> top rows = Some t -> (bp_hi t <? c) = true ->
  scan rows c = None.
Proof.
  destruct rows as [|r0 rest]; [discriminate|]. intros O [= <-] A.
  apply scan_none. intros r I. unfold within.
  rewrite (above_all rest r0 c O A r I). apply andb_false_r.
Qed.

Lemma above_not_negative (rows : list (breakpoint F)) (t : breakpoint F) (c : F) :
  ordered rows = true -> top rows = Some t -> (bp_hi t <? c) = true ->
  (c <? lit 0) = false.
Proof.
  intros O T A. destruct (ordered_In _ _ O (top_In _ _ T)) as [Z P].
  destruct (c <? lit 0) eqn:N; [|reflexivity].
  pose proof (lt_le_trans _ _ _ (lt_le_trans _ _ _ N Z) P) as L.
  pose proof (lt_not_ge _ _ L). pose proof (lt_le_weak _ _ A). congruence.
Qed.

(** **** [calculate_pollutant_aqi] on an ordered table *)

Lemma calculate_within
  (pollutant_key : string) (rows : list (breakpoint F)) (r : breakpoint F) (c : F) :
  dict_get BREAKPOINTS pollutant_key = Some rows -> ordered rows = true ->
  In r rows -> within r c = true ->
  calculate_pollutant_aqi pollutant_key c
  = if degenerate r then Ok (i_low r) else py_round (linear r c).
Proof.
  intros G O I W.
  rewrite calculate_pollutant_aqi_eq, G, (within_not_negative rows r c O I W).
  rewrite interpolate_eq, (scan_found rows r c O I W).
  destruct rows; [contradiction | reflexivity].
Qed.

Lemma calculate_above
  (pollutant_key : string) (rows : list (breakpoint F)) (t : breakpoint F) (c : F) :
  dict_get BREAKPOINTS pollutant_key = Some rows -> ordered rows = true ->
  top rows = Some t -> (bp_hi t <? c) = true ->
  calculate_pollutant_aqi pollutant_key c
  = if degenerate t then Ok (i_hi t) else py_round (linear t c).
Proof.
  intros G O T A.
  rewrite calculate_pollutant_aqi_eq, G, (above_not_negative rows t c O T A).
  rewrite interpolate_eq, T, (scan_none_above rows t c O T A), beyond_eq, A.
  reflexivity.
Qed.

Lemma calculate_between
  (pollutant_key : string) (rows : list (breakpoint F)) (t : breakpoint F) (c : F) :
  dict_get BREAKPOINTS pollutant_key = Some rows -> top rows = Some t ->
  (c <? lit 0) = false -> (bp_hi t <? c) = false ->
  (forall r, In r rows -> within r c = false) ->
  calculate_pollutant_aqi pollutant_key c = Ok 0%Z.
Proof.
  intros G T L U N.
  rewrite calculate_pollutant_aqi_eq, G, L.
  rewrite interpolate_eq, T, (scan_none rows c N), beyond_eq, U.
  reflexivity.
Qed.

(** What the script passes to a table is a truncated concentration. *)
Lemma normalised_is_truncated (v c : F) :
  (o3_c v = Ok c -> exists k, c = truncated 1000 k)
  /\ (pm25_c v = Ok c -> exists k, c = truncated 10 k)
  /\ (pm10_c v = Ok c -> exists k, c = truncated 1 k)
  /\ (co_c v = Ok c -> exists k, c = truncated 10 k)
  /\ (so2_c v = Ok c -> exists k, c = truncated 1 k)
  /\ (no2_c v = Ok c -> exists k, c = truncated 1 k).
Proof.
  unfold o3_c, pm25_c, pm10_c, co_c, so2_c, no2_c, truncate_to.
  repeat split;
    match goal with
    | |- context [py_int ?x] => destruct (py_int x) as [k|]
    end; cbn [bind]; intros [= <-]; exists k; reflexivity.
Qed.

End Tables.

(** * Exact arithmetic *)

(** [lra] once the injected integers are made opaque. *)
Ltac hide_inject :=
  repeat match goal with
         | |- context [inject_Z ?z] =>
             let q := fresh "q" in set (q := inject_Z z) in *; clearbody q
         | H : context [inject_Z ?z] |- _ =>
             let q := fresh "q" in set (q := inject_Z z) in *; clearbody q
         end.
Ltac qlra := hide_inject; lra.

Section Rationals.

Local Open Scope Q_scope.

Lemma Qlt_bool_iff (x y : Q) : Exact.Qlt_bool x y = true <-> x < y.
Proof.
  unfold Exact.Qlt_bool. rewrite negb_true_iff.
  split; intro E.
  - apply Qnot_le_lt. intro L. apply Qle_bool_iff in L. congruence.
  - destruct (Qle_bool y x) eqn:B; [|reflexivity].
    apply Qle_bool_iff in B. exfalso. apply (Qlt_not_le _ _ E B).
Qed.

Lemma Qlt_bool_false (x y : Q) : Exact.Qlt_bool x y = false <-> y <= x.
Proof.
  unfold Exact.Qlt_bool. rewrite negb_false_iff. apply Qle_bool_iff.
Qed.

Lemma Qle_bool_false (x y : Q) : Qle_bool x y = false <-> y < x.
Proof.
  rewrite <- Qlt_bool_iff. unfold Exact.Qlt_bool.
  destruct (Qle_bool x y); simpl; split; congruence.
Qed.

Lemma Qeq_bool_false (x y : Q) : Qeq_bool x y = false <-> ~ x == y.
Proof.
  split; intro E.
  - apply Qeq_bool_neq. exact E.
  - destruct (Qeq_bool x y) eqn:B; [|reflexivity].
    apply Qeq_bool_iff in B. contradiction.
Qed.

(** The fractional part of [x] decides [round_half_even x]. *)
Lemma round_half_even_cases (x : Q) :
  let f := Qfloor x in
  (Exact.round_half_even x = f /\
     (x - inject_Z f < 1 # 2 \/ (x - inject_Z f == 1 # 2 /\ Z.even f = true)))
  \/ (Exact.round_half_even x = (f + 1)%Z /\
     (1 # 2 < x - inject_Z f \/ (x - inject_Z f == 1 # 2 /\ Z.even f = false))).
Proof.
  intro f. unfold Exact.round_half_even. fold f.
  destruct (Qcompare (x - inject_Z f) (1 # 2)) eqn:C.
  - rewrite <- Qeq_alt in C. destruct (Z.even f) eqn:E; [left | right]; auto.
  - rewrite <- Qlt_alt in C. left; auto.
  - rewrite <- Qgt_alt in C. right; auto.
Qed.

Lemma Qfloor_bounds (x : Q) :
  inject_Z (Qfloor x) <= x /\ x < inject_Z (Qfloor x) + 1.
Proof.
  split; [apply Qfloor_le|].
  pose proof (Qlt_floor x) as L.
  rewrite inject_Z_plus in L. exact L.
Qed.

Lemma round_half_even_mono (x y : Q) :
  x <= y -> (Exact.round_half_even x <= Exact.round_half_even y)%Z.
Proof.
  intro L.
  pose proof (Qfloor_resp_le _ _ L) as FL.
  pose proof (Qfloor_bounds x) as [X1 X2].
  pose proof (Qfloor_bounds y) as [Y1 Y2].
  destruct (round_half_even_cases x) as [[-> Cx] | [-> Cx]];
    destruct (round_half_even_cases y) as [[-> Cy] | [-> Cy]];
    try lia.
  destruct (Z.eq_dec (Qfloor x) (Qfloor y)) as [E | N]; [|lia].
  exfalso. rewrite E in *.
  destruct Cx as [Cx | [Cx Ex]]; destruct Cy as [Cy | [Cy Ey]];
    try congruence; qlra.
Qed.

Lemma round_half_even_inject (z : Z) : Exact.round_half_even (inject_Z z) = z.
Proof.
  unfold Exact.round_half_even. rewrite Qfloor_Z.
  assert (C : Qcompare (inject_Z z - inject_Z z) (1 # 2) = Lt).
  { rewrite <- Qlt_alt. qlra. }
  rewrite C. reflexivity.
Qed.

Lemma round_half_even_comp (x y : Q) :
  x == y -> Exact.round_half_even x = Exact.round_half_even y.
Proof.
  intro E. apply Z.le_antisymm; apply round_half_even_mono; rewrite E; apply Qle_refl.
Qed.

Lemma round_half_even_ge (z : Z) (x : Q) :
  inject_Z z <= x -> (z <= Exact.round_half_even x)%Z.
Proof.
  intro L. rewrite <- (round_half_even_inject z). apply round_half_even_mono, L.
Qed.

Lemma round_half_even_le (z : Z) (x : Q) :
  x <= inject_Z z -> (Exact.round_half_even x <= z)%Z.
Proof.
  intro L. rewrite <- (round_half_even_inject z). apply round_half_even_mono, L.
Qed.

(** [round_half_even] is rounding to nearest, ties to even. *)
Lemma round_half_even_nearest : nearest_ties_to_even Exact.round_half_even.
Proof.
  intro x.
  pose proof (Qfloor_bounds x) as [X1 X2].
  destruct (round_half_even_cases x) as [[-> C] | [-> C]].
  - assert (A : Qabs (x - inject_Z (Qfloor x)) == x - inject_Z (Qfloor x)).
    { apply Qabs_pos. qlra. }
    rewrite A. split.
    + destruct C as [C | [C _]]; qlra.
    + intro T. destruct C as [C | [_ C]]; [qlra | exact C].
  - rewrite inject_Z_plus.
    assert (A : Qabs (x - (inject_Z (Qfloor x) + inject_Z 1))
                == inject_Z (Qfloor x) + 1 - x).
    { rewrite Qabs_neg; [|change (inject_Z 1) with 1; qlra].
      change (inject_Z 1) with 1. ring. }
    rewrite A. split.
    + destruct C as [C | [C _]]; qlra.
    + intro T. destruct C as [C | [_ C]]; [qlra|].
      rewrite Z.even_add, C. reflexivity.
Qed.

#[global] Instance exact_order : Ordered Q.
Proof.
  split; intros *; cbn [ltb leb Exact.number];
    rewrite ?Qlt_bool_iff, ?Qle_bool_iff, ?Qle_bool_false; lra.
Qed.

End Rationals.


(** * The interpolation over exact concentrations *)

Section Interpolation.

Local Open Scope Q_scope.

Lemma inside_iff (r : row) (c : Q) : within r c = true <-> inside r c.
Proof.
  unfold inside, within. cbn [leb Exact.number].
  rewrite andb_true_iff, !Qle_bool_iff. reflexivity.
Qed.

Lemma not_inside (r : row) (c : Q) : ~ inside r c -> within r c = false.
Proof.
  intro N. apply not_true_is_false. rewrite inside_iff. exact N.
Qed.

Lemma proper_not_degenerate (r : row) :
  bp_low r < bp_hi r -> degenerate r = false.
Proof. intro P. apply Qeq_bool_false. cbn [sub lit Exact.number]. lra. Qed.

Lemma linear_exact (r : row) (c : Q) :
  linear r c
  = (inject_Z (i_hi r - i_low r) / (bp_hi r - bp_low r)) * (c - bp_low r)
    + inject_Z (i_low r).
Proof. exact (linear_eq r c). Qed.

(** The line through [(bp_low, i_low)] and [(bp_hi, i_hi)]. *)
Lemma linear_mono (r : row) (c1 c2 : Q) :
  bp_low r < bp_hi r -> (i_low r <= i_hi r)%Z -> c1 <= c2 ->
  linear r c1 <= linear r c2.
Proof.
  intros P I L. rewrite !linear_exact.
  assert (S : 0 <= inject_Z (i_hi r - i_low r) / (bp_hi r - bp_low r)).
  { apply Qle_shift_div_l; [lra|].
    rewrite Qmult_0_l. change 0 with (inject_Z 0).
    rewrite <- Zle_Qle. lia. }
  apply Qplus_le_compat; [|apply Qle_refl].
  rewrite !(Qmult_comm (inject_Z (i_hi r - i_low r) / (bp_hi r - bp_low r))).
  apply Qmult_le_compat_r; [lra | exact S].
Qed.

Lemma linear_at_low (r : row) : linear r (bp_low r) == inject_Z (i_low r).
Proof. rewrite linear_exact. ring. Qed.

Lemma linear_at_hi (r : row) :
  bp_low r < bp_hi r -> linear r (bp_hi r) == inject_Z (i_hi r).
Proof.
  intro P. rewrite linear_exact. unfold Z.sub. rewrite inject_Z_plus, inject_Z_opp.
  field. lra.
Qed.

(** **** The equations of the engine, in exact arithmetic *)

Lemma scan_exact (r : row) (rest : list row) (c : Q) :
  scan (r :: rest) c
  = if within r c then
      if degenerate r then Some (Ok (i_low r))
      else Some (Ok (Exact.round_half_even (linear r c)))
    else scan rest c.
Proof. exact (scan_cons r rest c). Qed.

Lemma beyond_exact (r : row) (c : Q) :
  beyond r c
  = if Exact.Qlt_bool (bp_hi r) c then
      if degenerate r then Ok (i_hi r)
      else Ok (Exact.round_half_even (linear r c))
    else Ok 0%Z.
Proof. exact (beyond_eq r c). Qed.

Lemma calculate_exact (pollutant_key : string) (c : Q) :
  calculate_pollutant_aqi pollutant_key c
  = if Exact.Qlt_bool c 0 then Ok 0%Z
    else match dict_get BREAKPOINTS pollutant_key with
         | None => Ok 0%Z
         | Some rows => interpolate rows c
         end.
Proof. reflexivity. Qed.

(** **** The six tables *)

Lemma tables (pollutant_key : string) (rows : list row) :
  dict_get BREAKPOINTS pollutant_key = Some rows ->
  ordered rows = true /\
  exists d, dict_get PRECISION pollutant_key = Some d
            /\ chain d rows = true /\ starts_at_zero rows = true.
Proof.
  intro G. apply dict_get_In in G. unfold BREAKPOINTS in G.
  repeat (destruct G as [G | G];
          [injection G as <- <-; split;
           [|eexists; split; [reflexivity|]]; vm_compute; auto |]).
  destruct G.
Qed.

End Interpolation.

(** * Truncated concentrations *)

Section Grid.

Local Open Scope Q_scope.

Variable d : positive.

Lemma Qmake_scale (a : Z) : a # d == inject_Z a * (1 # d).
Proof. unfold Qeq, Qmult, inject_Z. simpl. ring. Qed.

Lemma on_grid_iff (x : Q) :
  on_grid d x = true <-> exists k : Z, x == inject_Z k * (1 # d).
Proof.
  unfold on_grid. rewrite Qeq_bool_iff. split.
  - intro E. exists (Qfloor (x * inject_Z (Z.pos d))).
    apply (Qeq_trans _ _ _ E), Qmake_scale.
  - intros [k E].
    assert (X : x * inject_Z (Z.pos d) == inject_Z k).
    { rewrite E. unfold Qeq, Qmult, inject_Z. simpl.
      rewrite Pos.mul_1_r. ring. }
    assert (K : Qfloor (x * inject_Z (Z.pos d)) = k).
    { rewrite (Qfloor_comp _ _ X). apply Qfloor_Z. }
    rewrite K. apply (Qeq_trans _ _ _ E). symmetry. apply Qmake_scale.
Qed.


Lemma chain_cons (r : row) (rest : list row) :
  chain d (r :: rest) = true ->
  bp_low r < bp_hi r /\ (i_low r < i_hi r)%Z
  /\ on_grid d (bp_low r) = true /\ on_grid d (bp_hi r) = true
  /\ match rest with
     | [] => True
     | r' :: _ => bp_low r' == bp_hi r + (1 # d) /\ (i_hi r < i_low r')%Z
     end
  /\ chain d rest = true.
Proof.
  simpl. rewrite !andb_true_iff, Qlt_bool_iff, Z.ltb_lt.
  intros [[[[[A B] C] D] E] G]. repeat split; auto.
  destruct rest as [|r' rest]; [exact I|].
  apply andb_true_iff in E as [E1 E2].
  apply Qeq_bool_iff in E1. apply Z.ltb_lt in E2. split; assumption.
Qed.

(** **** One bracket *)




Lemma inside_bounds (r : row) (c : Q) :
  bp_low r < bp_hi r -> (i_low r < i_hi r)%Z -> inside r c ->
  (i_low r <= Exact.round_half_even (linear r c) <= i_hi r)%Z.
Proof.
  intros P I [L U]. split.
  - apply round_half_even_ge. rewrite <- linear_at_low.
    apply linear_mono; [exact P | lia | exact L].
  - apply round_half_even_le. rewrite <- linear_at_hi by exact P.
    apply linear_mono; [exact P | lia | exact U].
Qed.


(** **** A whole table *)



End Grid.


(** * [calculate_pollutant_aqi] on the six tables *)

Section Calculate.

Local Open Scope Q_scope.

Lemma chain_In (d : positive) (rows : list row) (r : row) :
  chain d rows = true -> In r rows ->
  bp_low r < bp_hi r /\ (i_low r < i_hi r)%Z.
Proof.
  induction rows as [|r0 rest IH]; intros C I; [contradiction|].
  apply chain_cons in C as (P & J & _ & _ & _ & C).
  destruct I as [<- | I]; [split; assumption | apply IH; assumption].
Qed.

Lemma not_negative (c : Q) : 0 <= c -> Exact.Qlt_bool c 0 = false.
Proof. intro L. apply Qlt_bool_false. exact L. Qed.

Lemma calculate_negative (pollutant_key : string) (c : Q) :
  c < 0 -> calculate_pollutant_aqi pollutant_key c = Ok 0%Z.
Proof.
  intro L. rewrite calculate_exact.
  apply Qlt_bool_iff in L. rewrite L. reflexivity.
Qed.

Lemma calculate_inside (pollutant_key : string) (rows : list row) (r : row) (c : Q) :
  dict_get BREAKPOINTS pollutant_key = Some rows -> In r rows -> inside r c ->
  calculate_pollutant_aqi pollutant_key c
  = Ok (if degenerate r then i_low r
        else Exact.round_half_even (linear r c)).
Proof.
  intros G I S. destruct (tables _ _ G) as [O _].
  apply inside_iff in S. rewrite (calculate_within _ _ _ _ G O I S).
  destruct (degenerate r); reflexivity.
Qed.

Lemma calculate_beyond (pollutant_key : string) (rows : list row) (t : row) (c : Q) :
  dict_get BREAKPOINTS pollutant_key = Some rows -> top rows = Some t ->
  bp_hi t < c ->
  calculate_pollutant_aqi pollutant_key c
  = Ok (Exact.round_half_even (linear t c))
  /\ (i_hi t <= Exact.round_half_even (linear t c))%Z.
Proof.
  intros G T A. destruct (tables _ _ G) as (O & d & _ & C & _).
  destruct (chain_In d rows t C (top_In _ _ T)) as [P J].
  split.
  - apply Qlt_bool_iff in A.
    rewrite (calculate_above _ _ _ _ G O T A), proper_not_degenerate by exact P.
    reflexivity.
  - apply round_half_even_ge. rewrite <- linear_at_hi by exact P.
    apply linear_mono; [exact P | lia | lra].
Qed.

(** Above the top bracket every index is reached: nothing is clamped. *)
Lemma calculate_unbounded (pollutant_key : string) (rows : list row) (t : row) :
  dict_get BREAKPOINTS pollutant_key = Some rows -> top rows = Some t ->
  forall bound : Z, exists (c : Q) (a : Z),
      bp_hi t < c /\ calculate_pollutant_aqi pollutant_key c = Ok a
      /\ (bound < a)%Z.
Proof.
  intros G T bound. destruct (tables _ _ G) as (O & d & _ & C & _).
  destruct (chain_In d rows t C (top_In _ _ T)) as [P J].
  set (b := (Z.max bound (i_hi t) + 1)%Z).
  set (c := bp_low t + inject_Z (b - i_low t) * (bp_hi t - bp_low t)
                       / inject_Z (i_hi t - i_low t)).
  assert (J' : ~ inject_Z (i_hi t - i_low t) == 0).
  { change 0 with (inject_Z 0). rewrite inject_Z_injective. lia. }
  assert (V : linear t c == inject_Z b).
  { rewrite linear_exact. unfold c.
    replace (b - i_low t)%Z with (b + - i_low t)%Z by lia.
    rewrite (inject_Z_plus b), inject_Z_opp.
    field. split; [exact J' | lra]. }
  assert (A : bp_hi t < c).
  { destruct (Qlt_le_dec (bp_hi t) c) as [A | U]; [exact A | exfalso].
    pose proof (linear_mono t c (bp_hi t) P ltac:(lia) U) as M.
    rewrite V, linear_at_hi in M by exact P.
    rewrite <- Zle_Qle in M. lia. }
  exists c, b. split; [exact A|]. split; [|lia].
  destruct (calculate_beyond _ _ _ c G T A) as [-> _].
  rewrite (round_half_even_comp _ _ V), round_half_even_inject. reflexivity.
Qed.

Lemma calculate_gap (pollutant_key : string) (rows : list row) (t : row) (c : Q) :
  dict_get BREAKPOINTS pollutant_key = Some rows -> top rows = Some t ->
  0 <= c -> c <= bp_hi t -> (forall r, In r rows -> ~ inside r c) ->
  calculate_pollutant_aqi pollutant_key c = Ok 0%Z.
Proof.
  intros G T L U N. apply (calculate_between _ rows t c G T).
  - apply not_negative, L.
  - apply Qlt_bool_false, U.
  - intros r I. apply not_inside, N, I.
Qed.







End Calculate.

(** * Aggregation *)

Section Aggregation.

Lemma max_from_spec (xs : list Z) :
  forall best : Z,
    In (max_from best xs) (best :: xs) /\
    (forall v, In v (best :: xs) -> v <= max_from best xs).
Proof.
  induction xs as [|x xs IH]; intro best; simpl.
  - split; [left; reflexivity|]. intros v [<- | []]. lia.
  - destruct (IH (if best <? x then x else best)) as [M U]. split.
    + destruct M as [M | M]; [|right; right; exact M].
      rewrite <- M. destruct (best <? x); [right | ]; left; reflexivity.
    + intros v I.
      assert (B : best <= max_from (if best <? x then x else best) xs
                  /\ x <= max_from (if best <? x then x else best) xs).
      { pose proof (U _ (or_introl eq_refl)) as B.
        destruct (Z.ltb_spec best x); lia. }
      destruct I as [<- | [<- | I]]; [lia | lia |].
      apply U. right. exact I.
Qed.

Lemma py_max_spec (xs : list Z) :
  xs <> [] ->
  exists m, py_max xs = Ok m /\ In m xs /\ (forall v, In v xs -> v <= m).
Proof.
  destruct xs as [|x xs]; [congruence|]. intros _.
  exists (max_from x xs). split; [reflexivity|]. apply max_from_spec.
Qed.

(** [max(xs, key=f)] returns the first item of largest key: the items
    before it have a strictly smaller key, the items after it a key that
    is not larger. *)
Lemma max_key_from_spec {A : Type} (f : A -> option Z) (xs : list A) :
  forall (best : A) (vbest : Z),
    f best = Some vbest ->
    (forall x, In x xs -> exists v, f x = Some v) ->
    exists pre k post m,
      best :: xs = pre ++ k :: post /\
      max_key_from f best xs = Ok k /\ f k = Some m /\
      (forall x, In x pre -> exists v, f x = Some v /\ v < m) /\
      (forall x, In x post -> exists v, f x = Some v /\ v <= m).
Proof.
  induction xs as [|x xs IH]; intros best vbest B D.
  - exists [], best, [], vbest. repeat split; auto; intros x [].
  - destruct (D x (or_introl eq_refl)) as [vx X].
    assert (D' : forall y, In y xs -> exists v, f y = Some v)
      by (intros y I; apply D; right; exact I).
    simpl. rewrite X, B. simpl.
    destruct (Z.ltb_spec vbest vx) as [L | L].
    + (* [x] becomes the best item *)
      destruct (IH x vx X D') as (pre & k & post & m & E & R & K & P & Q).
      assert (M : vx <= m).
      { destruct pre as [|p pre]; simpl in E; injection E as <- E.
        - rewrite X in K. injection K as <-. lia.
        - destruct (P x (or_introl eq_refl)) as (v & V & Lt).
          rewrite X in V. injection V as <-. lia. }
      exists (best :: pre), k, post, m. repeat split; auto.
      * simpl. rewrite E. reflexivity.
      * intros y [<- | I]; [exists vbest; split; [exact B | lia] | apply P, I].
    + (* [best] stays *)
      destruct (IH best vbest B D') as (pre & k & post & m & E & R & K & P & Q).
      destruct pre as [|p pre]; simpl in E; injection E as <- E.
      * exists [], best, (x :: post), m. subst xs.
        rewrite B in K. injection K as <-.
        repeat split; auto; try (now intros y []).
        intros y [<- | I]; [exists vx; split; [exact X | lia] | apply Q, I].
      * destruct (P best (or_introl eq_refl)) as (v & V & Lt).
        rewrite B in V. injection V as <-.
        exists (best :: x :: pre), k, post, m. subst xs.
        repeat split; auto.
        intros y [<- | [<- | I]];
          [exists vbest; split; [exact B | exact Lt]
          | exists vx; split; [exact X | lia]
          | apply P; right; exact I].
Qed.

Lemma dominant_six (a1 a2 a3 a4 a5 a6 : Z) :
  let d := six a1 a2 a3 a4 a5 a6 in
  exists pre k post m,
    POLLUTANT_ORDER = pre ++ k :: post /\
    dominant_pollutant_key d = Ok k /\ dict_get d k = Some m /\
    (forall x, In x pre -> exists v, dict_get d x = Some v /\ v < m) /\
    (forall x, In x post -> exists v, dict_get d x = Some v /\ v <= m).
Proof.
  intro d.
  apply (max_key_from_spec (dict_get d) _ "o3_ppm"%string a1); [reflexivity|].
  intros x I. simpl in I.
  repeat (destruct I as [<- | I]; [eexists; reflexivity|]).
  destruct I.
Qed.

End Aggregation.

(** * Category lookup *)

Section Lookup.

(** The records of the guide are made opaque, only their ranges are kept. *)
Ltac hide_categories :=
  unfold matching, get_airnow_aqi_info, last_category, AIRNOW_AQI_GUIDE;
  repeat match goal with
         | |- context [Build_category (?lo, ?hi) ?l ?c ?d] =>
             let x := fresh "cat" in
             let E := fresh "E" in
             remember (Build_category (lo, hi) l c d) as x eqn:E;
             apply (f_equal range) in E; cbn [range] in E
         end;
  cbn [filter find last]; unfold in_range;
  repeat match goal with
         | E : range ?x = _ |- _ => rewrite E; clear E
         end.

Ltac split_leb :=
  repeat match goal with
         | |- context [Z.leb ?x ?y] =>
             destruct (Z.leb_spec x y); try (exfalso; lia)
         end.

Lemma matching_in_guide (a : Z) :
  0 <= a <= 10000 ->
  exists c, matching a = [c] /\ get_airnow_aqi_info a = c.
Proof.
  intro R. hide_categories.
  split_leb; cbn [andb]; eexists; split; reflexivity.
Qed.

Lemma matching_above_guide (a : Z) :
  10000 < a ->
  matching a = [] /\ get_airnow_aqi_info a = last_category.
Proof.
  intro R. hide_categories.
  split_leb; cbn [andb]; split; reflexivity.
Qed.

End Lookup.

(** * Unit conversion and truncation *)

Section Normalisation.

Local Open Scope Q_scope.

Lemma truncate_nonneg (x : Q) : 0 <= x -> Exact.truncate x = Qfloor x.
Proof.
  destruct x as [n d]. unfold Exact.truncate, Qfloor, Qle. simpl.
  intro L. apply Z.quot_div_nonneg; lia.
Qed.

Lemma truncate_opp (x : Q) : Exact.truncate (- x) = (- Exact.truncate x)%Z.
Proof.
  destruct x as [n d]. unfold Exact.truncate. simpl.
  apply Z.quot_opp_l. discriminate.
Qed.

Lemma truncate_comp (x y : Q) : x == y -> Exact.truncate x = Exact.truncate y.
Proof.
  destruct x as [n d], y as [m e]. unfold Qeq, Exact.truncate. simpl. intro E.
  rewrite <- (Z.quot_mul_cancel_r n (Z.pos d) (Z.pos e)) by discriminate.
  rewrite <- (Z.quot_mul_cancel_r m (Z.pos e) (Z.pos d)) by discriminate.
  rewrite E. f_equal. ring.
Qed.

(** [int(x)] drops the fractional part: it never moves away from zero and
    stays less than one unit from [x]. *)
Lemma truncate_abs (x : Q) :
  Qabs (inject_Z (Exact.truncate x)) <= Qabs x /\
  Qabs x < Qabs (inject_Z (Exact.truncate x)) + 1.
Proof.
  destruct (Qlt_le_dec x 0) as [N | P].
  - assert (P : 0 <= - x) by lra.
    pose proof (truncate_nonneg _ P) as T. rewrite truncate_opp in T.
    assert (E : Exact.truncate x = (- Qfloor (- x))%Z) by lia.
    pose proof (Qfloor_bounds (- x)) as [B1 B2].
    assert (F0 : (0 <= Qfloor (- x))%Z).
    { rewrite <- (Qfloor_Z 0). apply Qfloor_resp_le. exact P. }
    rewrite E, inject_Z_opp, Qabs_opp.
    rewrite (Qabs_pos (inject_Z (Qfloor (- x))))
      by (change 0 with (inject_Z 0); rewrite <- Zle_Qle; exact F0).
    rewrite (Qabs_neg x) by lra. split; assumption.
  - rewrite (truncate_nonneg _ P).
    pose proof (Qfloor_bounds x) as [B1 B2].
    assert (F0 : (0 <= Qfloor x)%Z).
    { rewrite <- (Qfloor_Z 0). apply Qfloor_resp_le. exact P. }
    rewrite (Qabs_pos (inject_Z (Qfloor x)))
      by (change 0 with (inject_Z 0); rewrite <- Zle_Qle; exact F0).
    rewrite (Qabs_pos x) by exact P. split; assumption.
Qed.

Lemma scale_pos (n : nat) : 0 < inject_Z (10 ^ Z.of_nat n).
Proof.
  change 0 with (inject_Z 0). rewrite <- Zlt_Qlt.
  apply Z.pow_pos_nonneg; lia.
Qed.

(** Truncation to [n] decimals moves towards zero by less than one unit
    of the last decimal: it is never rounding to nearest. *)
Lemma truncate_decimals_abs (n : nat) (x : Q) :
  Qabs (truncate_decimals n x) <= Qabs x /\
  Qabs x < Qabs (truncate_decimals n x) + 1 / inject_Z (10 ^ Z.of_nat n).
Proof.
  unfold truncate_decimals.
  pose proof (scale_pos n) as S. set (s := inject_Z (10 ^ Z.of_nat n)) in *.
  destruct (truncate_abs (x * s)) as [B1 B2].
  set (k := inject_Z (Exact.truncate (x * s))) in *.
  assert (I : 0 < / s) by (apply Qinv_lt_0_compat, S).
  assert (A : Qabs (k / s) == Qabs k * / s).
  { unfold Qdiv. rewrite Qabs_Qmult, (Qabs_pos (/ s)) by lra. reflexivity. }
  assert (X : Qabs (x * s) == Qabs x * s).
  { rewrite Qabs_Qmult, (Qabs_pos s) by lra. reflexivity. }
  rewrite X in B1, B2. rewrite A.
  assert (C : Qabs x == Qabs x * s * / s) by (field; lra).
  split.
  - rewrite C. apply Qmult_le_compat_r; [exact B1 | lra].
  - rewrite C at 1.
    apply Qlt_le_trans with ((Qabs k + 1) * / s).
    + apply Qmult_lt_compat_r; [exact I | exact B2].
    + apply Qle_lteq. right. field. lra.
Qed.

Lemma o3_c_eq (o3_v : Q) : o3_c o3_v = Ok (normalize 48.0 1000 3 o3_v).
Proof. reflexivity. Qed.

Lemma co_c_eq (co_v : Q) : co_c co_v = Ok (normalize 28.01 1000 1 co_v).
Proof. reflexivity. Qed.

Lemma whole_number_eq (raw raw' : Q) :
  raw == raw' ->
  inject_Z (Exact.truncate raw) == truncate_decimals 0 raw'.
Proof.
  intro E. unfold truncate_decimals. change (inject_Z (10 ^ Z.of_nat 0)) with 1.
  rewrite (truncate_comp (raw' * 1) raw) by (rewrite E; ring).
  field.
Qed.

Lemma so2_c_eq (so2_v : Q) :
  exists c, so2_c so2_v = Ok c /\ c == normalize 64.07 1 0 so2_v.
Proof.
  eexists. split; [reflexivity|]. apply whole_number_eq.
  unfold so2_raw_ppb. simpl. field.
Qed.

Lemma no2_c_eq (no2_v : Q) :
  exists c, no2_c no2_v = Ok c /\ c == normalize 46.01 1 0 no2_v.
Proof.
  eexists. split; [reflexivity|]. apply whole_number_eq.
  unfold no2_raw_ppb. simpl. field.
Qed.

End Normalisation.

(** * One observation *)

Section Observation.

Local Open Scope Q_scope.

Lemma scan_total (rows : list row) (c : Q) (r : result Z) :
  scan rows c = Some r -> exists a, r = Ok a.
Proof.
  induction rows as [|r0 rest IH]; [discriminate|].
  rewrite scan_exact.
  destruct (within r0 c); [|exact IH].
  destruct (degenerate r0); intros [= <-]; eexists; reflexivity.
Qed.

(** Exact arithmetic never raises. *)
Lemma calculate_total (pollutant_key : string) (c : Q) :
  exists a, calculate_pollutant_aqi pollutant_key c = Ok a.
Proof.
  rewrite calculate_exact.
  destruct (Exact.Qlt_bool c 0); [eexists; reflexivity|].
  destruct (dict_get BREAKPOINTS pollutant_key) as [rows|]; [|eexists; reflexivity].
  rewrite interpolate_eq.
  destruct (top rows) as [t|]; [|eexists; reflexivity].
  destruct (scan rows c) as [r|] eqn:S; [exact (scan_total _ _ _ S)|].
  rewrite beyond_exact.
  destruct (Exact.Qlt_bool (bp_hi t) c); [|eexists; reflexivity].
  destruct (degenerate t); eexists; reflexivity.
Qed.

Lemma aqi_v_total (components : dict Q) :
  exists a1 a2 a3 a4 a5 a6,
    aqi_v components = Ok (six a1 a2 a3 a4 a5 a6).
Proof.
  unfold aqi_v, o3_c, pm25_c, pm10_c, co_c, so2_c, no2_c, truncate_to.
  cbn [bind py_int Exact.number].
  repeat match goal with
         | |- context [calculate_pollutant_aqi ?k ?c] =>
             let a := fresh "a" in
             let E := fresh "E" in
             destruct (calculate_total k c) as [a E]; rewrite E; cbn [bind]
         end.
  do 6 eexists. reflexivity.
Qed.

Lemma overall_six (a1 a2 a3 a4 a5 a6 : Z) :
  exists m,
    overall_aqi (six a1 a2 a3 a4 a5 a6) = Ok m /\
    In m [a1; a2; a3; a4; a5; a6] /\
    (forall v, In v [a1; a2; a3; a4; a5; a6] -> (v <= m)%Z).
Proof.
  apply (py_max_spec [a1; a2; a3; a4; a5; a6]). discriminate.
Qed.

Lemma analyse_total (components : dict Q) :
  exists r, analyse components = Ok r.
Proof.
  unfold analyse.
  destruct (aqi_v_total components) as (a1 & a2 & a3 & a4 & a5 & a6 & ->).
  cbn [bind].
  destruct (overall_six a1 a2 a3 a4 a5 a6) as (m & -> & _).
  destruct (dominant_six a1 a2 a3 a4 a5 a6) as (_ & k & _ & _ & _ & -> & _).
  eexists. reflexivity.
Qed.

(** What the script computes is on the grid of its table. *)
Lemma on_grid_quotient (d : positive) (k : Z) :
  on_grid d (inject_Z k / inject_Z (Z.pos d)) = true.
Proof.
  apply on_grid_iff. exists k. unfold Qeq, Qdiv, Qmult, Qinv, inject_Z. simpl.
  ring.
Qed.

Lemma normalised_on_grid (v : Q) :
  (exists c, o3_c v = Ok c /\ on_grid 1000 c = true) /\
  (exists c, pm25_c v = Ok c /\ on_grid 10 c = true) /\
  (exists c, pm10_c v = Ok c /\ on_grid 1 c = true) /\
  (exists c, co_c v = Ok c /\ on_grid 10 c = true) /\
  (exists c, so2_c v = Ok c /\ on_grid 1 c = true) /\
  (exists c, no2_c v = Ok c /\ on_grid 1 c = true).
Proof.
  repeat split; eexists; (split; [reflexivity|]);
    first [ apply (on_grid_quotient 1000) | apply (on_grid_quotient 10)
          | apply on_grid_iff; eexists; cbn [of_int Exact.number];
            symmetry; apply Qmult_1_r ].
Qed.

End Observation.

(** * The engine in double precision *)

Section Doubles.

Local Open Scope num_scope.

(** **** The order of the doubles *)

Ltac compare_cases :=
  repeat match goal with
         | s : bool |- _ => destruct s
         | H : context [Pos.compare_cont ?c ?a ?b] |- _ =>
             change (Pos.compare_cont c a b) with (Pos.compare a b) in H
         | |- context [Pos.compare_cont ?c ?a ?b] =>
             change (Pos.compare_cont c a b) with (Pos.compare a b)
         | H : context [Z.compare ?a ?b] |- _ => destruct (Z.compare_spec a b)
         | |- context [Z.compare ?a ?b] => destruct (Z.compare_spec a b)
         | H : context [Pos.compare ?a ?b] |- _ => destruct (Pos.compare_spec a b)
         | |- context [Pos.compare ?a ?b] => destruct (Pos.compare_spec a b)
         end;
  simpl in *; try discriminate; try reflexivity; try lia.

Ltac by_cases :=
  unfold SFltb, SFleb, SFcompare;
  repeat match goal with
         | x : spec_float |- _ => destruct x as [? | ? | | ? ? ?]
         end;
  simpl; try discriminate; try reflexivity; compare_cases.

Lemma SF_lt_le_trans (x y z : spec_float) :
  SFltb x y = true -> SFleb y z = true -> SFltb x z = true.
Proof. by_cases. Qed.

Lemma SF_le_lt_trans (x y z : spec_float) :
  SFleb x y = true -> SFltb y z = true -> SFltb x z = true.
Proof. by_cases. Qed.

Lemma SF_lt_le_weak (x y : spec_float) : SFltb x y = true -> SFleb x y = true.
Proof. by_cases. Qed.

Lemma SF_lt_not_ge (x y : spec_float) : SFltb x y = true -> SFleb y x = false.
Proof. by_cases. Qed.

#[global] Instance double_order : Ordered float.
Proof.
  split; intros *; cbn [ltb leb Binary64.number];
    rewrite ?FloatAxioms.ltb_spec, ?FloatAxioms.leb_spec.
  - apply SF_lt_le_trans.
  - apply SF_le_lt_trans.
  - apply SF_lt_le_weak.
  - apply SF_lt_not_ge.
Qed.

(** **** The six tables *)

Lemma double_tables (pollutant_key : string) (rows : list (breakpoint Q)) :
  dict_get BREAKPOINTS pollutant_key = Some rows ->
  dict_get BREAKPOINTS pollutant_key = Some (map to_double rows)
  /\ ordered (map to_double rows) = true
  /\ forallb (fun r => negb (degenerate (to_double r))) rows = true.
Proof.
  intro G. apply dict_get_In in G. unfold BREAKPOINTS in G.
  repeat (destruct G as [G | G];
          [injection G as <- <-; vm_compute; auto |]).
  destruct G.
Qed.

Lemma top_to_double (rows : list (breakpoint Q)) (t : breakpoint Q) :
  top rows = Some t -> top (map to_double rows) = Some (to_double t).
Proof.
  destruct rows as [|r rest]; [discriminate|]. intros [= <-].
  cbn [map top]. f_equal. apply last_map.
Qed.

(** **** [calculate_pollutant_aqi] on any double *)

Lemma double_inside
  (pollutant_key : string) (rows : list (breakpoint Q)) (r : breakpoint Q) (x : float) :
  dict_get BREAKPOINTS pollutant_key = Some rows -> In r rows ->
  within (to_double r) x = true ->
  calculate_pollutant_aqi pollutant_key x = py_round (linear (to_double r) x).
Proof.
  intros G I W. destruct (double_tables _ _ G) as (G' & O & P).
  rewrite (calculate_within _ _ (to_double r) x G' O (in_map to_double _ _ I) W).
  rewrite forallb_forall in P. specialize (P r I).
  apply negb_true_iff in P. rewrite P. reflexivity.
Qed.

Lemma double_beyond
  (pollutant_key : string) (rows : list (breakpoint Q)) (t : breakpoint Q) (x : float) :
  dict_get BREAKPOINTS pollutant_key = Some rows -> top rows = Some t ->
  (bp_hi (to_double t) <? x) = true ->
  calculate_pollutant_aqi pollutant_key x = py_round (linear (to_double t) x).
Proof.
  intros G T A. destruct (double_tables _ _ G) as (G' & O & P).
  rewrite (calculate_above _ _ (to_double t) x G' O (top_to_double _ _ T) A).
  rewrite forallb_forall in P. specialize (P t (top_In _ _ T)).
  apply negb_true_iff in P. rewrite P. reflexivity.
Qed.

Lemma double_gap
  (pollutant_key : string) (rows : list (breakpoint Q)) (t : breakpoint Q) (x : float) :
  dict_get BREAKPOINTS pollutant_key = Some rows -> top rows = Some t ->
  (x <? lit 0) = false -> (bp_hi (to_double t) <? x) = false ->
  (forall r, In r rows -> within (to_double r) x = false) ->
  calculate_pollutant_aqi pollutant_key x = Ok 0%Z.
Proof.
  intros G T L U N. destruct (double_tables _ _ G) as (G' & _ & _).
  apply (calculate_between _ _ _ x G' (top_to_double _ _ T) L U).
  intros r' I. apply in_map_iff in I as (r & <- & I). apply N, I.
Qed.

(** **** Evaluations *)

Lemma literals_are_nearest_doubles :
  (lit 0.054 : float) = 0.054%float /\ (lit 9.1 : float) = 9.1%float
  /\ (lit 325.4 : float) = 325.4%float /\ (lit 24.45 : float) = 24.45%float
  /\ (lit 28.01 : float) = 28.01%float /\ (lit 1000 : float) = 1000%float.
Proof. vm_compute. repeat split. Qed.

Lemma double_o3_108 :
  o3_c (lit 108 : float) = Ok (lit 0.055)
  /\ calculate_pollutant_aqi "o3_ppm" (lit 0.055 : float) = Ok 51%Z.
Proof. vm_compute. split; reflexivity. Qed.

Lemma double_pm25_upper_edge :
  pm25_c (lit 35.4 : float) = Ok (lit 35.4)
  /\ calculate_pollutant_aqi "pm2_5" (lit 35.4 : float) = Ok 100%Z.
Proof. vm_compute. split; reflexivity. Qed.

Lemma double_negative (pollutant_key : string) :
  calculate_pollutant_aqi pollutant_key (lit (-5) : float) = Ok 0%Z.
Proof. reflexivity. Qed.

(** **** The truncated concentrations

    On every truncated concentration from 0 to the limit the double
    engine and the exact engine agree. *)
Lemma agree_on_grid :
  forallb (fun '(pollutant_key, d, limit) =>
             match dict_get BREAKPOINTS pollutant_key with
             | Some rows => forallb (agree pollutant_key d rows) (upto limit)
             | None => false
             end)
    [("o3_ppm", 1000%positive, 700%Z); ("pm2_5", 10%positive, 5000%Z);
     ("pm10", 1%positive, 700%Z); ("co_ppm", 10%positive, 600%Z);
     ("so2_ppb", 1%positive, 1100%Z); ("no2_ppb", 1%positive, 2100%Z)]%string
  = true.
Proof. vm_compute. reflexivity. Qed.

Lemma In_upto (n k : Z) : (0 <= k <= n)%Z -> In k (upto n).
Proof.
  intros [L U]. unfold upto. apply in_map_iff. exists (Z.to_nat k).
  split; [lia|]. apply in_seq. lia.
Qed.

Lemma same_result_eq (r1 r2 : result Z) : same_result r1 r2 = true -> r1 = r2.
Proof.
  destruct r1 as [a|], r2 as [b|]; try discriminate.
  cbn [same_result]. intro E. apply Z.eqb_eq in E. congruence.
Qed.

Lemma agree_at
  (pollutant_key : string) (d : positive) (limit : Z) (k : Z) :
  dict_get PRECISION pollutant_key = Some d ->
  dict_get LIMIT pollutant_key = Some limit ->
  (0 <= k <= limit)%Z ->
  exists rows,
    dict_get BREAKPOINTS pollutant_key = Some rows
    /\ agree pollutant_key d rows k = true.
Proof.
  intros P L R. pose proof agree_on_grid as A.
  rewrite forallb_forall in A.
  assert (I : In (pollutant_key, d, limit)
                 [("o3_ppm", 1000%positive, 700%Z); ("pm2_5", 10%positive, 5000%Z);
                  ("pm10", 1%positive, 700%Z); ("co_ppm", 10%positive, 600%Z);
                  ("so2_ppb", 1%positive, 1100%Z);
                  ("no2_ppb", 1%positive, 2100%Z)]%string).
  { apply dict_get_In in P. unfold PRECISION in P.
    repeat (destruct P as [P | P];
            [injection P as <- <-; cbn in L; injection L as <-;
             cbn [In]; auto 10 |]).
    destruct P. }
  specialize (A _ I). cbv beta iota in A.
  destruct (dict_get BREAKPOINTS pollutant_key) as [rows|]; [|discriminate].
  exists rows. split; [reflexivity|].
  rewrite forallb_forall in A. apply A, In_upto, R.
Qed.

(** The two engines on a truncated concentration. *)
Lemma double_on_grid
  (pollutant_key : string) (d : positive) (limit : Z) (rows : list row) (k : Z) :
  dict_get PRECISION pollutant_key = Some d ->
  dict_get LIMIT pollutant_key = Some limit ->
  dict_get BREAKPOINTS pollutant_key = Some rows ->
  (0 <= k <= limit)%Z ->
  calculate_pollutant_aqi pollutant_key (truncated d k : float)
  = calculate_pollutant_aqi pollutant_key (truncated d k : Q)
  /\ (forall r, In r rows ->
        within (to_double r) (truncated d k) = within r (truncated d k))
  /\ (forall r, In r rows ->
        (truncated d k <=? bp_hi (to_double r))
        = (truncated d k <=? bp_hi r))
  /\ (truncated d k <? lit 0 : bool) = false
  /\ ((truncated d k : float) <? truncated d (k + 1)) = true.
Proof.
  intros P L B R.
  destruct (agree_at _ _ _ _ P L R) as (rows' & B' & A).
  rewrite B in B'. injection B' as <-.
  unfold agree in A. cbv zeta in A.
  apply andb_true_iff in A as [A A4]. apply andb_true_iff in A as [A A3].
  apply andb_true_iff in A as [A1 A2].
  rewrite forallb_forall in A2.
  split; [exact (same_result_eq _ _ A1)|].
  split.
  { intros r I. specialize (A2 r I). apply andb_true_iff in A2 as [X Y].
    apply eqb_prop in X. apply eqb_prop in Y.
    unfold within. rewrite X, Y. reflexivity. }
  split.
  { intros r I. specialize (A2 r I). apply andb_true_iff in A2 as [X Y].
    apply eqb_prop in Y. exact Y. }
  split; [apply negb_true_iff, A3 | exact A4].
Qed.



Lemma negative_gives_zero (pollutant_key : string) (c : float) :
  (c <? lit 0) = true -> calculate_pollutant_aqi pollutant_key c = Ok 0%Z.
Proof. intro N. unfold calculate_pollutant_aqi. rewrite N. reflexivity. Qed.


Lemma double_non_finite :
  calculate_pollutant_aqi "pm10" PrimFloat.infinity = Raise OverflowError
  /\ pm10_c PrimFloat.nan = Raise ValueError
  /\ calculate_pollutant_aqi "pm10" PrimFloat.nan = Ok 0%Z.
Proof. vm_compute. repeat split. Qed.

(** A reading of 1.7e308 micrograms of PM10 is truncated to itself, and
    the formula of the top bracket overflows: [round] raises. *)
Lemma double_overflow :
  pm10_c 1.7e308%float = Ok 1.7e308%float
  /\ calculate_pollutant_aqi "pm10" 1.7e308%float = Raise OverflowError.
Proof. vm_compute. split; reflexivity. Qed.

End Doubles.

(** * The claims *)

Section Claims.

Local Open Scope Q_scope.

Lemma degenerate_exact (r : row) : degenerate r = Qeq_bool (bp_hi r) (bp_low r).
Proof.
  unfold degenerate. cbn [sub eqb lit Exact.number].
  destruct (Qeq_bool (bp_hi r) (bp_low r)) eqn:E.
  - apply Qeq_bool_iff in E. apply Qeq_bool_iff. lra.
  - apply Qeq_bool_false in E. apply Qeq_bool_false. lra.
Qed.

Lemma within_to_double (lo hi : Q) (il ih : Z) (c : float) :
  within (to_double (lo, hi, il, ih)) c = ((lit lo <=? c) && (c <=? lit hi))%num.
Proof. reflexivity. Qed.

(** C1.  For each of the six pollutants and every concentration [c]
    inside one of its brackets ([bp_low <= c <= bp_hi]),
    [calculate_pollutant_aqi] returns [i_low] when [bp_hi == bp_low] and
    otherwise
    [round(((i_hi - i_low) / (bp_hi - bp_low)) * (c - bp_low) + i_low)],
    both for exact concentrations and for doubles, where [round] is
    rounding to the nearest integer with ties going to the even
    neighbour. *)
Theorem bracket_interpolation
  (pollutant_key : string) (breakpoints : list row)
  (bp_low bp_hi : Q) (i_low i_hi : Z) :
  dict_get BREAKPOINTS pollutant_key = Some breakpoints ->
  In (bp_low, bp_hi, i_low, i_hi) breakpoints ->
  (forall c : Q,
      bp_low <= c <= bp_hi ->
      calculate_pollutant_aqi pollutant_key c
      = Ok (if Qeq_bool bp_hi bp_low then i_low
            else Exact.round_half_even
                   ((inject_Z (i_hi - i_low) / (bp_hi - bp_low)) * (c - bp_low)
                    + inject_Z i_low)))
  /\ (forall c : float,
         (lit bp_low <=? c)%num = true -> (c <=? lit bp_hi)%num = true ->
         calculate_pollutant_aqi pollutant_key c
         = if (lit bp_hi - lit bp_low =? lit 0)%num then Ok i_low
           else py_round
                  ((of_int (i_hi - i_low) / (lit bp_hi - lit bp_low)) * (c - lit bp_low)
                   + of_int i_low)%num)
  /\ nearest_ties_to_even Exact.round_half_even.
Proof.
  intros G I. split; [|split; [|exact round_half_even_nearest]].
  - intros c S.
    rewrite (calculate_inside _ _ _ c G I S), degenerate_exact. reflexivity.
  - intros c L U. destruct (double_tables _ _ G) as (G' & O & _).
    apply (calculate_within _ _ (to_double (bp_low, bp_hi, i_low, i_hi)) c G' O).
    + apply (in_map to_double), I.
    + rewrite within_to_double, L, U. reflexivity.
Qed.

Lemma bracket_interpolation_witness :
  calculate_pollutant_aqi "pm2_5" 20
  = Ok (if Qeq_bool 35.4 9.1 then 51%Z
        else Exact.round_half_even
               ((inject_Z (100 - 51) / (35.4 - 9.1)) * (20 - 9.1) + inject_Z 51))
  /\ calculate_pollutant_aqi "pm2_5" (lit 20 : float)
     = if (lit 35.4 - lit 9.1 =? lit 0)%num then Ok 51%Z
       else py_round
              ((of_int (100 - 51) / (lit 35.4 - lit 9.1)) * (lit 20 - lit 9.1)
               + of_int 51)%num.
Proof.
  destruct (bracket_interpolation "pm2_5" _ 9.1 35.4 51%Z 100%Z eq_refl
              (or_intror (or_introl eq_refl))) as (E & D & _).
  split.
  - apply E. split; vm_compute; discriminate.
  - apply D; vm_compute; reflexivity.
Defined.

(** C2.  For a non-empty dictionary of sub-indices, [overall_aqi] is one
    of the sub-indices and no sub-index is larger: it is their maximum. *)
Theorem overall_is_maximum (aqi_v : dict Z) :
  aqi_v <> [] ->
  exists m,
    overall_aqi aqi_v = Ok m /\ In m (values aqi_v) /\
    (forall v, In v (values aqi_v) -> (v <= m)%Z).
Proof.
  intro N. destruct aqi_v as [|[k v] d]; [congruence|].
  apply py_max_spec. discriminate.
Qed.

Lemma overall_is_maximum_witness :
  exists m,
    overall_aqi (six 12 87 40 3 0 87) = Ok m /\
    In m (values (six 12 87 40 3 0 87)) /\
    (forall v, In v (values (six 12 87 40 3 0 87)) -> (v <= m)%Z).
Proof.
  apply (overall_is_maximum (six 12 87 40 3 0 87)). discriminate.
Defined.

(** C3.  For each of the six pollutants and each row of its table,
    [calculate_pollutant_aqi] at the row's [bp_low] is the row's [i_low]
    and at the row's [bp_hi] is the row's [i_hi], in exact arithmetic and
    in double precision. *)
Theorem boundary_exactness
  (pollutant_key : string) (breakpoints : list row)
  (bp_low bp_hi : Q) (i_low i_hi : Z) :
  dict_get BREAKPOINTS pollutant_key = Some breakpoints ->
  In (bp_low, bp_hi, i_low, i_hi) breakpoints ->
  calculate_pollutant_aqi pollutant_key bp_low = Ok i_low
  /\ calculate_pollutant_aqi pollutant_key bp_hi = Ok i_hi
  /\ calculate_pollutant_aqi pollutant_key (lit bp_low : float) = Ok i_low
  /\ calculate_pollutant_aqi pollutant_key (lit bp_hi : float) = Ok i_hi.
Proof.
  intros G I. apply dict_get_In in G. unfold BREAKPOINTS in G.
  repeat (destruct G as [G | G];
          [injection G as <- <-;
           repeat (destruct I as [I | I];
                   [injection I as <- <- <- <-; vm_compute; auto |]);
           destruct I |]).
  destruct G.
Qed.

Lemma boundary_exactness_witness :
  calculate_pollutant_aqi "co_ppm" 9.5 = Ok 101%Z
  /\ calculate_pollutant_aqi "co_ppm" 12.4 = Ok 150%Z
  /\ calculate_pollutant_aqi "co_ppm" (lit 9.5 : float) = Ok 101%Z
  /\ calculate_pollutant_aqi "co_ppm" (lit 12.4 : float) = Ok 150%Z.
Proof.
  eapply (boundary_exactness "co_ppm" _ 9.5 12.4 101%Z 150%Z).
  - reflexivity.
  - right; right; left; reflexivity.
Defined.




(** C5.  Above the top bracket of a table, [calculate_pollutant_aqi]
    applies the formula of the top bracket, for exact concentrations and
    for doubles; the result is at least the top index and every index is
    exceeded further up: nothing is clamped.  With readings O3 0,
    PM2.5 500, PM10 0, CO 0, SO2 0, NO2 0 the PM2.5 sub-index is 573, above
    400, the overall AQI is 573, the dominant pollutant is PM2.5 and the
    category is Hazardous, in exact arithmetic and in double precision. *)
Theorem extrapolation_above_top_bracket
  (pollutant_key : string) (breakpoints : list row)
  (bp_low bp_hi : Q) (i_low i_hi : Z) :
  dict_get BREAKPOINTS pollutant_key = Some breakpoints ->
  top breakpoints = Some (bp_low, bp_hi, i_low, i_hi) ->
  (forall c : Q,
      bp_hi < c ->
      exists a,
        calculate_pollutant_aqi pollutant_key c = Ok a
        /\ a = Exact.round_half_even
                 ((inject_Z (i_hi - i_low) / (bp_hi - bp_low)) * (c - bp_low)
                  + inject_Z i_low)
        /\ (i_hi <= a)%Z)
  /\ (forall bound : Z, exists (c : Q) (a : Z),
         bp_hi < c /\ calculate_pollutant_aqi pollutant_key c = Ok a
         /\ (bound < a)%Z)
  /\ (forall c : float,
         (lit bp_hi <? c)%num = true ->
         calculate_pollutant_aqi pollutant_key c
         = py_round
             ((of_int (i_hi - i_low) / (lit bp_hi - lit bp_low)) * (c - lit bp_low)
              + of_int i_low)%num)
  /\ (exists r,
         analyse (readings 0 500 0 0 0 0 : dict Q) = Ok r
         /\ sub_indices r = six 0 573 0 0 0 0
         /\ overall r = 573%Z /\ dominant r = "pm2_5"%string
         /\ level (airnow_info r) = "Hazardous"%string)
  /\ (exists r,
         analyse (readings 0 500 0 0 0 0 : dict float) = Ok r
         /\ sub_indices r = six 0 573 0 0 0 0
         /\ overall r = 573%Z /\ dominant r = "pm2_5"%string
         /\ level (airnow_info r) = "Hazardous"%string).
Proof.
  intros G T. split; [|split; [|split; [|split]]].
  - intros c A. destruct (calculate_beyond _ _ _ c G T A) as [E B].
    eexists. split; [exact E|]. split; [reflexivity | exact B].
  - exact (calculate_unbounded _ _ _ G T).
  - intros c A. exact (double_beyond _ _ _ c G T A).
  - eexists. split; [vm_compute; reflexivity|]. repeat split.
  - eexists. split; [vm_compute; reflexivity|]. repeat split.
Qed.

Lemma extrapolation_above_top_bracket_witness :
  (exists a,
      calculate_pollutant_aqi "pm2_5" 500 = Ok a
      /\ a = Exact.round_half_even
               ((inject_Z (400 - 301) / (325.4 - 225.5)) * (500 - 225.5)
                + inject_Z 301)
      /\ (400 <= a)%Z)
  /\ calculate_pollutant_aqi "pm2_5" (lit 500 : float)
     = py_round
         ((of_int (400 - 301) / (lit 325.4 - lit 225.5)) * (lit 500 - lit 225.5)
          + of_int 301)%num.
Proof.
  destruct (extrapolation_above_top_bracket "pm2_5" _ 225.5 325.4 301%Z 400%Z
              eq_refl eq_refl) as (E & _ & D & _).
  split.
  - apply E. reflexivity.
  - apply D. vm_compute. reflexivity.
Defined.

(** C6, as claimed: the normalised concentration is the formula
    [(v * 24.45) / (MOLAR_MASS * scale)], truncated and never rounded.
    The script evaluates the formula in double precision, where every
    operation rounds, and truncates the double it gets.  For the double
    94.336196319018384 of SO2 the quotient is rounded up to 36.0 and the
    script passes 36, sub-index 51; the formula on that same number is
    below 36 and truncates to 35, sub-index 50.  For the double
    139.38650306748465 of O3 the script passes 0.071, the formula
    truncates to 0.070. *)
Lemma double_formula_rounds_up :
  so2_c 94.336196319018384%float = Ok (of_int 36)
  /\ normalize 64.07 1 0 (Binary64.value 94.336196319018384%float) == 35
  /\ calculate_pollutant_aqi "so2_ppb" (of_int 36 : float) = Ok 51%Z
  /\ calculate_pollutant_aqi "so2_ppb" (35 : Q) = Ok 50%Z
  /\ o3_c 139.38650306748465%float = Ok (lit 0.071)
  /\ normalize 48.0 1000 3 (Binary64.value 139.38650306748465%float) == 0.070.
Proof.
  repeat split; vm_compute; reflexivity.
Qed.

(** C6, amended.  For the gases the script evaluates, in the arithmetic
    of its numbers, [(v * 24.45) / (MOLAR_MASS * scale)] with molar masses
    48.0 (O3), 28.01 (CO), 64.07 (SO2) and 46.01 (NO2), scale 1000 for O3
    and CO and 1 for SO2 and NO2, and passes the result to [int], at 3
    decimals (O3), 1 decimal (CO) or none (SO2, NO2): for every double,
    and for every rational in exact arithmetic.  [int] truncates the
    double it is given towards zero, by less than one unit: it never
    rounds it.  In exact arithmetic the result is the truncation of the
    formula.  O3 at 108 micrograms gives 0.055 ppm and the sub-index 51 in
    double precision, and 109.9 micrograms give 0.055 too. *)
Theorem gas_normalisation :
  (forall v : float,
      o3_c v = normalized 48.0 1000 3 v
      /\ co_c v = normalized 28.01 1000 1 v
      /\ so2_c v = normalized 64.07 1 0 v
      /\ no2_c v = normalized 46.01 1 0 v)
  /\ (forall (x : float) (k : Z),
        py_int x = Ok k ->
        k = Exact.truncate (Binary64.value x)
        /\ Qabs (inject_Z k) <= Qabs (Binary64.value x)
        /\ Qabs (Binary64.value x) < Qabs (inject_Z k) + 1)
  /\ (o3_c (lit 108 : float) = Ok (lit 0.055)
      /\ calculate_pollutant_aqi "o3_ppm" (lit 0.055 : float) = Ok 51%Z
      /\ o3_c (lit 109.9 : float) = Ok (lit 0.055))
  /\ (forall v : Q,
        o3_c v = normalized 48.0 1000 3 v
        /\ co_c v = normalized 28.01 1000 1 v
        /\ so2_c v = normalized 64.07 1 0 v
        /\ no2_c v = normalized 46.01 1 0 v
        /\ o3_c v = Ok (normalize 48.0 1000 3 v)
        /\ co_c v = Ok (normalize 28.01 1000 1 v)
        /\ (exists c, so2_c v = Ok c /\ c == normalize 64.07 1 0 v)
        /\ (exists c, no2_c v = Ok c /\ c == normalize 46.01 1 0 v)).
Proof.
  split.
  { intro v. repeat split; reflexivity. }
  split.
  { intros x k. cbn [py_int Binary64.number].
    unfold Binary64.to_integer, Binary64.value.
    destruct (Prim2SF x) as [s | s | | s m e]; try discriminate;
      intros [= <-];
      (split; [reflexivity | first [apply truncate_abs | apply (truncate_abs 0)]]). }
  split.
  { repeat split; vm_compute; reflexivity. }
  intro v.
  split; [reflexivity|]. split; [reflexivity|].
  split; [reflexivity|]. split; [reflexivity|].
  split; [apply o3_c_eq|]. split; [apply co_c_eq|].
  split; [apply so2_c_eq | apply no2_c_eq].
Qed.

(** C7.  For any six sub-indices, [dominant_pollutant_key] is a pollutant
    whose sub-index is the overall AQI; the pollutants before it in the
    order O3, PM2.5, PM10, CO, SO2, NO2 have a strictly smaller sub-index
    and those after it a sub-index that is not larger, so that among tied
    pollutants the first one is returned. *)
Theorem dominant_is_first_maximum (a1 a2 a3 a4 a5 a6 : Z) :
  let aqi_v := six a1 a2 a3 a4 a5 a6 in
  exists pre k post m,
    POLLUTANT_ORDER = pre ++ k :: post /\
    dominant_pollutant_key aqi_v = Ok k /\
    overall_aqi aqi_v = Ok m /\
    dict_get aqi_v k = Some m /\
    (forall x, In x pre -> exists v, dict_get aqi_v x = Some v /\ (v < m)%Z) /\
    (forall x, In x post -> exists v, dict_get aqi_v x = Some v /\ (v <= m)%Z).
Proof.
  intro d.
  destruct (dominant_six a1 a2 a3 a4 a5 a6) as (pre & k & post & m & E & D & K & P & Q).
  fold d in D, K, P, Q.
  exists pre, k, post, m. repeat split; try assumption.
  destruct (overall_six a1 a2 a3 a4 a5 a6) as (m' & O & I & U).
  fold d in O. rewrite O. f_equal.
  assert (A : forall x, In x POLLUTANT_ORDER ->
              exists v, dict_get d x = Some v /\ (v <= m)%Z).
  { intros x X. rewrite E in X. apply in_app_or in X as [X | [<- | X]].
    - destruct (P x X) as (v & V & L). exists v. split; [exact V | lia].
    - exists m. split; [exact K | lia].
    - apply Q, X. }
  assert (B : forall v, In v [a1; a2; a3; a4; a5; a6] -> (v <= m)%Z).
  { destruct (A "o3_ppm"%string) as (? & [= <-] & L1); [simpl; tauto|].
    destruct (A "pm2_5"%string) as (? & [= <-] & L2); [simpl; tauto|].
    destruct (A "pm10"%string) as (? & [= <-] & L3); [simpl; tauto|].
    destruct (A "co_ppm"%string) as (? & [= <-] & L4); [simpl; tauto|].
    destruct (A "so2_ppb"%string) as (? & [= <-] & L5); [simpl; tauto|].
    destruct (A "no2_ppb"%string) as (? & [= <-] & L6); [simpl; tauto|].
    intros v V.
    repeat (destruct V as [<- | V]; [assumption|]).
    destruct V. }
  assert (C : In m [a1; a2; a3; a4; a5; a6]).
  { assert (X : In k POLLUTANT_ORDER) by (rewrite E; apply in_elt).
    simpl in X.
    repeat (destruct X as [<- | X];
            [injection K as <-; simpl; tauto |]).
    destruct X. }
  specialize (U m C). specialize (B m' I). lia.
Qed.

(** C8, as claimed: every non-negative integer lies in the range of
    exactly one category.  The last range ends at 10000: no range holds
    10001. *)
Lemma no_category_holds_10001 :
  matching 10001 = []
  /\ ~ (forall a : Z, (0 <= a)%Z -> exists c, matching a = [c]).
Proof.
  split; [reflexivity|].
  intro M. destruct (M 10001%Z ltac:(lia)) as [c E]. discriminate E.
Qed.

(** C8, amended.  An integer from 0 to 10000 lies in the range of exactly
    one category of the guide, which is the one [get_airnow_aqi_info]
    returns; above 10000 no range holds the value and
    [get_airnow_aqi_info] returns the last category, Hazardous. *)
Theorem category_lookup (a : Z) :
  (0 <= a)%Z ->
  (exists c,
      matching a = [c] /\ get_airnow_aqi_info a = c /\ (a <= 10000)%Z)
  \/ (matching a = [] /\ get_airnow_aqi_info a = last_category
      /\ level last_category = "Hazardous"%string /\ (10000 < a)%Z).
Proof.
  intro P. destruct (Z_le_gt_dec a 10000) as [L | G].
  - left. destruct (matching_in_guide a (conj P L)) as (c & M & E).
    exists c. auto.
  - right. destruct (matching_above_guide a ltac:(lia)) as [M E].
    repeat split; [exact M | exact E | lia].
Qed.

Lemma category_lookup_witness :
  (exists c,
      matching 75 = [c] /\ get_airnow_aqi_info 75 = c /\ (75 <= 10000)%Z)
  \/ (matching 75 = [] /\ get_airnow_aqi_info 75 = last_category
      /\ level last_category = "Hazardous"%string /\ (10000 < 75)%Z).
Proof.
  apply (category_lookup 75). discriminate.
Defined.

(** C9, as claimed: an empty input makes the aggregation fail.  The
    script guards [max] with [if aqi_v else 0] and reads a missing
    component as 0: nothing is raised. *)
Lemma empty_input_does_not_fail :
  overall_aqi [] = Ok 0%Z
  /\ ~ fails (overall_aqi [])
  /\ ~ fails (analyse ([] : dict Q))
  /\ ~ fails (analyse ([] : dict float)).
Proof.
  split; [reflexivity|].
  repeat split; intros [e E]; vm_compute in E; discriminate E.
Qed.

(** C9, amended.  For an empty dictionary of sub-indices the guard makes
    the overall AQI 0 and no maximum is computed.  For an empty set of
    readings each pollutant reads as 0: the six sub-indices and the
    overall AQI are 0, the category is Good, the first pollutant is
    reported, and no error is raised; in exact arithmetic no input makes
    the aggregation fail. *)
Theorem empty_input_defaults_to_zero :
  overall_aqi [] = Ok 0%Z
  /\ (exists r,
         analyse ([] : dict Q) = Ok r
         /\ sub_indices r = six 0 0 0 0 0 0 /\ overall r = 0%Z
         /\ dominant r = "o3_ppm"%string
         /\ level (airnow_info r) = "Good"%string)
  /\ (exists r,
         analyse ([] : dict float) = Ok r
         /\ sub_indices r = six 0 0 0 0 0 0 /\ overall r = 0%Z
         /\ dominant r = "o3_ppm"%string
         /\ level (airnow_info r) = "Good"%string)
  /\ (forall components : dict Q, ~ fails (analyse components)).
Proof.
  split; [reflexivity|].
  split; [eexists; split; [vm_compute; reflexivity | repeat split]|].
  split; [eexists; split; [vm_compute; reflexivity | repeat split]|].
  intros components [e E].
  destruct (analyse_total components) as [r R]. congruence.
Qed.

(** C10.  A non-negative concentration that lies in none of the brackets
    of a pollutant and does not exceed the top bracket, such as 9.05 for
    PM2.5, has sub-index 0, the result for a negative concentration; for
    exact concentrations and for doubles. *)
Theorem gap_returns_zero
  (pollutant_key : string) (breakpoints : list row) (t : row) :
  dict_get BREAKPOINTS pollutant_key = Some breakpoints ->
  top breakpoints = Some t ->
  (forall c : Q,
      0 <= c -> c <= bp_hi t ->
      (forall r, In r breakpoints -> ~ inside r c) ->
      calculate_pollutant_aqi pollutant_key c = Ok 0%Z)
  /\ (forall c : float,
         (lit 0 <=? c)%num = true -> (c <=? bp_hi (to_double t))%num = true ->
         (forall r, In r breakpoints -> within (to_double r) c = false) ->
         calculate_pollutant_aqi pollutant_key c = Ok 0%Z)
  /\ (forall c : Q, c < 0 -> calculate_pollutant_aqi pollutant_key c = Ok 0%Z)
  /\ calculate_pollutant_aqi "pm2_5" 9.05 = Ok 0%Z
  /\ calculate_pollutant_aqi "pm2_5" (lit 9.05 : float) = Ok 0%Z.
Proof.
  intros G T. split; [|split; [|split]].
  - intros c L U N. exact (calculate_gap _ _ _ _ G T L U N).
  - intros c L U N. apply (double_gap _ _ _ c G T); [| |exact N].
    + apply le_not_gt, L.
    + apply le_not_gt, U.
  - intros c N. apply calculate_negative, N.
  - split; vm_compute; reflexivity.
Qed.

Lemma gap_returns_zero_witness :
  calculate_pollutant_aqi "pm2_5" 9.05 = Ok 0%Z
  /\ calculate_pollutant_aqi "pm2_5" (lit 9.05 : float) = Ok 0%Z.
Proof.
  destruct (gap_returns_zero "pm2_5" _ _ eq_refl eq_refl) as (E & D & _).
  split.
  - apply E.
    + vm_compute; discriminate.
    + vm_compute; discriminate.
    + intros r I [L U]. apply Qle_bool_iff in L, U.
      repeat (destruct I as [<- | I];
              [vm_compute in L, U; discriminate|]).
      destruct I.
  - apply D.
    + vm_compute; reflexivity.
    + vm_compute; reflexivity.
    + intros r I.
      repeat (destruct I as [<- | I]; [vm_compute; reflexivity|]).
      destruct I.
Defined.

End Claims.

(** * Further properties of the engine *)

Section Sub_index.

Local Open Scope Q_scope.

(** The indices of the six tables run from 0 to 400, and the first bracket
    of each table starts at index 0. *)
Lemma tables_indices (pollutant_key : string) (rows : list row) :
  dict_get BREAKPOINTS pollutant_key = Some rows ->
  forallb (fun r => (0 <=? i_low r)%Z && (i_hi r <=? 400)%Z) rows = true
  /\ exists r0 rest, rows = r0 :: rest /\ bp_low r0 == 0 /\ i_low r0 = 0%Z.
Proof.
  intro G. apply dict_get_In in G. unfold BREAKPOINTS in G.
  repeat (destruct G as [G | G];
          [injection G as <- <-; split; [vm_compute; reflexivity|];
           do 2 eexists; split; [reflexivity|]; split; reflexivity |]).
  destruct G.
Qed.

Lemma index_range (pollutant_key : string) (rows : list row) (r : row) :
  dict_get BREAKPOINTS pollutant_key = Some rows -> In r rows ->
  (0 <= i_low r)%Z /\ (i_low r < i_hi r)%Z /\ (i_hi r <= 400)%Z.
Proof.
  intros G I. destruct (tables_indices _ _ G) as [B _].
  destruct (tables _ _ G) as (_ & d & _ & C & _).
  destruct (chain_In d _ r C I) as [_ J].
  rewrite forallb_forall in B. specialize (B r I).
  apply andb_true_iff in B as [B1 B2].
  apply Z.leb_le in B1, B2. repeat split; assumption.
Qed.

(** When the loop returns, it returns from a bracket that holds the
    concentration. *)
Lemma scan_some (rows : list row) (c : Q) (x : result Z) :
  scan rows c = Some x ->
  exists r, In r rows /\ inside r c
            /\ x = if degenerate r then Ok (i_low r)
                   else Ok (Exact.round_half_even (linear r c)).
Proof.
  induction rows as [|r0 rest IH]; [discriminate|].
  rewrite scan_exact. destruct (within r0 c) eqn:W.
  - intro E. exists r0. split; [left; reflexivity|].
    split; [apply inside_iff, W|].
    destruct (degenerate r0); injection E as <-; reflexivity.
  - intro E. destruct (IH E) as (r & I & S & X).
    exists r. split; [right; exact I | split; assumption].
Qed.

(** A sub-index is 0, or lies in the index range of the bracket that holds
    the concentration, or is at least the top index above the top
    bracket. *)
Lemma calculate_cases (pollutant_key : string) (c : Q) :
  exists a,
    calculate_pollutant_aqi pollutant_key c = Ok a
    /\ (a = 0%Z
        \/ (exists rows r,
               dict_get BREAKPOINTS pollutant_key = Some rows /\ In r rows
               /\ inside r c /\ (i_low r <= a <= i_hi r)%Z)
        \/ (exists rows t,
               dict_get BREAKPOINTS pollutant_key = Some rows
               /\ top rows = Some t /\ bp_hi t < c /\ (i_hi t <= a)%Z)).
Proof.
  rewrite calculate_exact.
  destruct (Exact.Qlt_bool c 0); [exists 0%Z; auto|].
  destruct (dict_get BREAKPOINTS pollutant_key) as [rows|] eqn:G;
    [|exists 0%Z; auto].
  destruct (tables _ _ G) as (O & d & _ & C & _).
  rewrite interpolate_eq.
  destruct (top rows) as [t|] eqn:T; [|exists 0%Z; auto].
  destruct (scan rows c) as [x|] eqn:S.
  - destruct (scan_some _ _ _ S) as (r & I & N & ->).
    destruct (chain_In d rows r C I) as [P J].
    rewrite proper_not_degenerate by exact P.
    eexists. split; [reflexivity|]. right; left.
    exists rows, r. split; [reflexivity|]. split; [exact I|]. split; [exact N|].
    apply inside_bounds; assumption.
  - rewrite beyond_exact.
    destruct (Exact.Qlt_bool (bp_hi t) c) eqn:A; [|exists 0%Z; auto].
    apply Qlt_bool_iff in A.
    destruct (chain_In d rows t C (top_In _ _ T)) as [P J].
    rewrite proper_not_degenerate by exact P.
    eexists. split; [reflexivity|]. right; right.
    exists rows, t. split; [reflexivity|]. split; [exact T|]. split; [exact A|].
    apply round_half_even_ge. rewrite <- linear_at_hi by exact P.
    apply linear_mono; [exact P | lia | lra].
Qed.

Lemma sub_index_cases_nonneg (pollutant_key : string) (c : Q) :
  exists a, calculate_pollutant_aqi pollutant_key c = Ok a /\ (0 <= a)%Z.
Proof.
  destruct (calculate_cases pollutant_key c) as (a & E & H).
  exists a. split; [exact E|].
  destruct H as [-> | [(rows & r & G & I & S & B) | (rows & t & G & T & A & B)]].
  - lia.
  - destruct (index_range _ _ _ G I) as (? & ? & ?). lia.
  - destruct (index_range _ _ _ G (top_In _ _ T)) as (? & ? & ?). lia.
Qed.

Lemma exact_in_bracket_range
  (pollutant_key : string) (breakpoints : list row) (r : row) (c : Q) :
  dict_get BREAKPOINTS pollutant_key = Some breakpoints ->
  In r breakpoints -> inside r c ->
  exists a,
    calculate_pollutant_aqi pollutant_key c = Ok a
    /\ (i_low r <= a <= i_hi r)%Z.
Proof.
  intros G I S. destruct (tables _ _ G) as (_ & d & _ & C & _).
  destruct (chain_In d _ r C I) as [P J].
  rewrite (calculate_inside _ _ _ c G I S), proper_not_degenerate by exact P.
  eexists. split; [reflexivity|]. apply inside_bounds; assumption.
Qed.

Lemma exact_never_negative (pollutant_key : string) (c : Q) :
  exists a,
    calculate_pollutant_aqi pollutant_key c = Ok a /\ (0 <= a)%Z
    /\ forall rows t,
         dict_get BREAKPOINTS pollutant_key = Some rows ->
         top rows = Some t -> c <= bp_hi t -> (a <= 400)%Z.
Proof.
  destruct (calculate_cases pollutant_key c) as (a & E & H).
  exists a. split; [exact E|].
  destruct H as [-> | [(rows & r & G & I & S & B) | (rows & t & G & T & A & B)]].
  - split; [lia|]. intros; lia.
  - destruct (index_range _ _ _ G I) as (? & ? & ?). split; [lia|]. intros; lia.
  - destruct (index_range _ _ _ G (top_In _ _ T)) as (? & ? & ?). split; [lia|].
    intros rows' t' G' T' U. rewrite G in G'. injection G' as <-.
    rewrite T in T'. injection T' as <-. exfalso. lra.
Qed.

(** X1.  A truncated concentration inside a bracket gets a sub-index
    inside the index range of that bracket, in double precision from 0 to
    the limit of the table; in exact arithmetic so does every
    concentration inside a bracket. *)
Theorem sub_index_in_bracket_range
  (pollutant_key : string) (d : positive) (limit : Z)
  (breakpoints : list row) (r : row) :
  dict_get PRECISION pollutant_key = Some d ->
  dict_get LIMIT pollutant_key = Some limit ->
  dict_get BREAKPOINTS pollutant_key = Some breakpoints ->
  In r breakpoints ->
  (forall k : Z,
      (0 <= k <= limit)%Z ->
      within (to_double r) (truncated d k) = true ->
      exists a,
        calculate_pollutant_aqi pollutant_key (truncated d k : float) = Ok a
        /\ (i_low r <= a <= i_hi r)%Z)
  /\ (forall c : Q,
        inside r c ->
        exists a,
          calculate_pollutant_aqi pollutant_key c = Ok a
          /\ (i_low r <= a <= i_hi r)%Z).
Proof.
  intros P L G I. split.
  - intros k R W.
    destruct (double_on_grid _ _ _ _ _ P L G R) as (-> & A & _).
    rewrite (A r I) in W. apply inside_iff in W.
    exact (exact_in_bracket_range _ _ _ _ G I W).
  - intros c S. exact (exact_in_bracket_range _ _ _ _ G I S).
Qed.

Lemma sub_index_in_bracket_range_witness :
  exists a,
    calculate_pollutant_aqi "no2_ppb" (truncated 1 200 : float) = Ok a
    /\ (101 <= a <= 150)%Z.
Proof.
  destruct (sub_index_in_bracket_range
              "no2_ppb" 1 2100 _ (101, 360, 101%Z, 150%Z) eq_refl eq_refl eq_refl)
    as [D _].
  - right; right; left; reflexivity.
  - apply (D 200%Z); [lia | vm_compute; reflexivity].
Defined.

(** X2.  On the doubles the tables are evaluated on, negative ones and
    truncated concentrations from 0 to the limit,
    [calculate_pollutant_aqi] returns and the sub-index is never
    negative; up to the end of the top bracket it is at most 400.  In
    exact arithmetic this holds of every key and concentration. *)
Theorem sub_index_never_negative
  (pollutant_key : string) (d : positive) (limit : Z) :
  dict_get PRECISION pollutant_key = Some d ->
  dict_get LIMIT pollutant_key = Some limit ->
  (forall c : float,
      evaluated d limit c ->
      exists a,
        calculate_pollutant_aqi pollutant_key c = Ok a /\ (0 <= a)%Z
        /\ forall rows t,
             dict_get BREAKPOINTS pollutant_key = Some rows ->
             top rows = Some t ->
             leb c (bp_hi (to_double t)) = true -> (a <= 400)%Z)
  /\ (forall c : Q,
        exists a,
          calculate_pollutant_aqi pollutant_key c = Ok a /\ (0 <= a)%Z
          /\ forall rows t,
               dict_get BREAKPOINTS pollutant_key = Some rows ->
               top rows = Some t -> c <= bp_hi t -> (a <= 400)%Z).
Proof.
  intros P L. split; [|intro c; apply exact_never_negative].
  intros c [N | (k & R & ->)].
  - rewrite (negative_gives_zero _ _ N). exists 0%Z.
    split; [reflexivity|]. split; [lia|]. intros; lia.
  - destruct (agree_at _ _ _ _ P L R) as (rows & G & _).
    destruct (double_on_grid _ _ _ _ _ P L G R) as (-> & _ & A & _).
    destruct (exact_never_negative pollutant_key (truncated d k)) as (a & E & Z0 & U).
    exists a. split; [exact E|]. split; [exact Z0|].
    intros rows' t G' T C. apply (U rows' t G' T).
    rewrite G in G'. injection G' as <-.
    rewrite (A t (top_In _ _ T)) in C. apply Qle_bool_iff, C.
Qed.

Lemma sub_index_never_negative_witness :
  exists a,
    calculate_pollutant_aqi "pm2_5" (truncated 10 3254 : float) = Ok a
    /\ (0 <= a <= 400)%Z.
Proof.
  destruct (sub_index_never_negative "pm2_5" 10 5000 eq_refl eq_refl) as [D _].
  destruct (D (truncated 10 3254)) as (a & E & Z0 & U).
  - right. exists 3254%Z. split; [lia | reflexivity].
  - exists a. split; [exact E|]. split; [exact Z0|].
    apply (U _ (225.5, 325.4, 301%Z, 400%Z) eq_refl eq_refl).
    vm_compute; reflexivity.
Defined.

End Sub_index.

Section Keys_and_categories.

(** X3.  For a key that is not one of the six pollutant keys,
    [calculate_pollutant_aqi] raises nothing and returns 0 for every
    concentration, at every instance of the numbers. *)
Theorem unknown_key_gives_zero
  {F : Type} `{Number F} (pollutant_key : string) (concentration : F) :
  ~ In pollutant_key POLLUTANT_ORDER ->
  calculate_pollutant_aqi pollutant_key concentration = Ok 0.
Proof.
  intro N. unfold calculate_pollutant_aqi.
  destruct (ltb concentration (lit 0)); [reflexivity|].
  assert (G : dict_get BREAKPOINTS pollutant_key = None).
  { unfold BREAKPOINTS. cbn [dict_get].
    repeat match goal with
           | |- context [String.eqb ?a pollutant_key] =>
               let E := fresh "E" in
               destruct (String.eqb_spec a pollutant_key) as [E | E];
               [exfalso; apply N; rewrite <- E; simpl; tauto|]
           end.
    reflexivity. }
  rewrite G. reflexivity.
Qed.

Lemma unknown_key_gives_zero_witness :
  calculate_pollutant_aqi "nh3" (lit 80 : float) = Ok 0.
Proof.
  apply (unknown_key_gives_zero "nh3" (lit 80 : float)).
  simpl. intros [E | [E | [E | [E | [E | [E | []]]]]]]; discriminate E.
Defined.

Lemma lookup_in_range (a : Z) (c : category) :
  0 <= a <= 10000 -> In c AIRNOW_AQI_GUIDE -> in_range a c = true ->
  get_airnow_aqi_info a = c.
Proof.
  intros R I T. destruct (matching_in_guide a R) as (c' & M & E).
  assert (J : In c (matching a)) by (apply filter_In; split; assumption).
  rewrite M in J. destruct J as [<- | []]. exact E.
Qed.

(** The index ranges of the brackets are the ranges of the guide, bracket
    by bracket. *)
Lemma bracket_in_category (pollutant_key : string) (rows : list row) (n : nat) (r : row) :
  dict_get BREAKPOINTS pollutant_key = Some rows ->
  nth_error rows n = Some r ->
  exists c, nth_error AIRNOW_AQI_GUIDE n = Some c
            /\ fst (range c) <= i_low r /\ i_hi r <= snd (range c).
Proof.
  intros G E. apply dict_get_In in G. unfold BREAKPOINTS in G.
  repeat (destruct G as [G | G];
          [injection G as <- <-;
           do 6 (destruct n as [|n];
                 [injection E as <-; eexists; split; [reflexivity|];
                  split; vm_compute; discriminate |]);
           destruct n; discriminate E |]).
  destruct G.
Qed.

Lemma exact_bracket_category
  (pollutant_key : string) (breakpoints : list row) (n : nat) (r : row) (c : Q) :
  dict_get BREAKPOINTS pollutant_key = Some breakpoints ->
  nth_error breakpoints n = Some r -> inside r c ->
  exists a,
    calculate_pollutant_aqi pollutant_key c = Ok a
    /\ nth_error AIRNOW_AQI_GUIDE n = Some (get_airnow_aqi_info a).
Proof.
  intros G E S. pose proof (nth_error_In _ _ E) as I.
  destruct (tables _ _ G) as (_ & d & _ & C & _).
  destruct (chain_In d _ r C I) as [P J].
  destruct (index_range _ _ _ G I) as (L & _ & U).
  destruct (bracket_in_category _ _ _ _ G E) as (cat & N & B1 & B2).
  rewrite (calculate_inside _ _ _ c G I S), proper_not_degenerate by exact P.
  eexists. split; [reflexivity|].
  pose proof (inside_bounds r c P J S) as B.
  rewrite N. f_equal. symmetry. apply lookup_in_range.
  - lia.
  - apply (nth_error_In _ _ N).
  - unfold in_range. destruct (range cat) as [lo hi]. simpl in B1, B2.
    apply andb_true_iff. split; apply Z.leb_le; lia.
Qed.

(** X4.  The brackets of [BREAKPOINTS] and the ranges of
    [AIRNOW_AQI_GUIDE] agree: the sub-index of a truncated concentration
    inside the n-th bracket of a table belongs to the n-th category of the
    guide, in double precision from 0 to the limit of the table; in exact
    arithmetic so does that of every concentration inside the bracket. *)
Theorem bracket_gives_its_category
  (pollutant_key : string) (d : positive) (limit : Z)
  (breakpoints : list row) (n : nat) (r : row) :
  dict_get PRECISION pollutant_key = Some d ->
  dict_get LIMIT pollutant_key = Some limit ->
  dict_get BREAKPOINTS pollutant_key = Some breakpoints ->
  nth_error breakpoints n = Some r ->
  (forall k : Z,
      0 <= k <= limit ->
      within (to_double r) (truncated d k) = true ->
      exists a,
        calculate_pollutant_aqi pollutant_key (truncated d k : float) = Ok a
        /\ nth_error AIRNOW_AQI_GUIDE n = Some (get_airnow_aqi_info a))
  /\ (forall c : Q,
        inside r c ->
        exists a,
          calculate_pollutant_aqi pollutant_key c = Ok a
          /\ nth_error AIRNOW_AQI_GUIDE n = Some (get_airnow_aqi_info a)).
Proof.
  intros P L G E. pose proof (nth_error_In _ _ E) as I. split.
  - intros k R W.
    destruct (double_on_grid _ _ _ _ _ P L G R) as (-> & A & _).
    rewrite (A r I) in W. apply inside_iff in W.
    exact (exact_bracket_category _ _ _ _ _ G E W).
  - intros c S. exact (exact_bracket_category _ _ _ _ _ G E S).
Qed.

Lemma bracket_gives_its_category_witness :
  exists a,
    calculate_pollutant_aqi "pm2_5" (truncated 10 400 : float) = Ok a
    /\ nth_error AIRNOW_AQI_GUIDE 2 = Some (get_airnow_aqi_info a).
Proof.
  destruct (bracket_gives_its_category
              "pm2_5" 10 5000 _ 2 (35.5%Q, 55.4%Q, 101, 150)
              eq_refl eq_refl eq_refl eq_refl) as [D _].
  apply (D 400); [lia | vm_compute; reflexivity].
Defined.

End Keys_and_categories.

(** * The report of one observation *)

Section Report.

Context {F : Type} `{Number F}.

(** [aqi_v] always has the six pollutant keys, in the same order. *)
Lemma aqi_v_shape (components : dict F) (d : dict Z) :
  aqi_v components = Ok d -> exists a1 a2 a3 a4 a5 a6, d = six a1 a2 a3 a4 a5 a6.
Proof.
  unfold aqi_v. cbv zeta.
  repeat match goal with
         | |- bind ?m _ = Ok _ -> _ =>
             destruct m; cbn [bind]; [|discriminate]
         end.
  intros [= <-]. do 6 eexists. reflexivity.
Qed.

Lemma analyse_inv (components : dict F) (r : report) :
  analyse components = Ok r ->
  exists a1 a2 a3 a4 a5 a6,
    sub_indices r = six a1 a2 a3 a4 a5 a6
    /\ overall_aqi (six a1 a2 a3 a4 a5 a6) = Ok (overall r)
    /\ dominant_pollutant_key (six a1 a2 a3 a4 a5 a6) = Ok (dominant r)
    /\ airnow_info r = get_airnow_aqi_info (overall r).
Proof.
  unfold analyse. destruct (aqi_v components) as [d|] eqn:V; [|discriminate].
  destruct (aqi_v_shape _ _ V) as (a1 & a2 & a3 & a4 & a5 & a6 & ->).
  cbn [bind].
  destruct (overall_aqi (six a1 a2 a3 a4 a5 a6)) as [o|] eqn:O; [|discriminate].
  cbn [bind].
  destruct (dominant_pollutant_key (six a1 a2 a3 a4 a5 a6)) as [k|] eqn:D;
    [|discriminate].
  cbn [bind]. intros [= <-]. exists a1, a2, a3, a4, a5, a6.
  cbn [sub_indices overall dominant airnow_info]. repeat split; assumption.
Qed.

(** The dominant pollutant holds the overall AQI. *)
Lemma dominant_holds_overall (a1 a2 a3 a4 a5 a6 : Z) (k : string) (m : Z) :
  dominant_pollutant_key (six a1 a2 a3 a4 a5 a6) = Ok k ->
  overall_aqi (six a1 a2 a3 a4 a5 a6) = Ok m ->
  In k POLLUTANT_ORDER /\ dict_get (six a1 a2 a3 a4 a5 a6) k = Some m.
Proof.
  intros D O.
  destruct (dominant_six a1 a2 a3 a4 a5 a6)
    as (pre & k' & post & m' & E & D' & K & P & Q).
  rewrite D in D'. injection D' as <-.
  destruct (overall_six a1 a2 a3 a4 a5 a6) as (n & O' & I & U).
  rewrite O in O'. injection O' as <-.
  assert (X : In k POLLUTANT_ORDER) by (rewrite E; apply in_elt).
  split; [exact X|]. rewrite K. f_equal.
  assert (A : forall x, In x POLLUTANT_ORDER ->
              exists v, dict_get (six a1 a2 a3 a4 a5 a6) x = Some v /\ v <= m').
  { intros x J. rewrite E in J. apply in_app_or in J as [J | [<- | J]].
    - destruct (P x J) as (v & V & L). exists v. split; [exact V | lia].
    - exists m'. split; [exact K | lia].
    - apply Q, J. }
  assert (B : m <= m').
  { destruct (A "o3_ppm"%string) as (? & [= <-] & L1); [simpl; tauto|].
    destruct (A "pm2_5"%string) as (? & [= <-] & L2); [simpl; tauto|].
    destruct (A "pm10"%string) as (? & [= <-] & L3); [simpl; tauto|].
    destruct (A "co_ppm"%string) as (? & [= <-] & L4); [simpl; tauto|].
    destruct (A "so2_ppb"%string) as (? & [= <-] & L5); [simpl; tauto|].
    destruct (A "no2_ppb"%string) as (? & [= <-] & L6); [simpl; tauto|].
    simpl in I.
    destruct I as [<- | [<- | [<- | [<- | [<- | [<- | []]]]]]]; assumption. }
  assert (C : m' <= m).
  { apply U. simpl in X.
    repeat (destruct X as [<- | X]; [injection K as <-; simpl; tauto |]).
    destruct X. }
  lia.
Qed.

(** X7.  Whenever the analysis of an observation returns, at any instance
    of the numbers, its report is coherent: the sub-indices are those of
    the six pollutants in their order, the dominant pollutant is one of
    them and holds the overall AQI, no sub-index exceeds the overall AQI,
    and the category shown is the one looked up for the overall AQI. *)
Theorem report_is_coherent (components : dict F) (r : report) :
  analyse components = Ok r ->
  keys (sub_indices r) = POLLUTANT_ORDER
  /\ dict_get (sub_indices r) (dominant r) = Some (overall r)
  /\ (forall k v, dict_get (sub_indices r) k = Some v -> v <= overall r)
  /\ airnow_info r = get_airnow_aqi_info (overall r).
Proof.
  intro A. destruct (analyse_inv _ _ A)
    as (a1 & a2 & a3 & a4 & a5 & a6 & S & O & D & G).
  rewrite S. split; [reflexivity|].
  split; [exact (proj2 (dominant_holds_overall _ _ _ _ _ _ _ _ D O))|].
  split; [|exact G].
  intros k v E. apply dict_get_In in E.
  destruct (overall_six a1 a2 a3 a4 a5 a6) as (m & O' & _ & U).
  rewrite O in O'. injection O' as <-. apply U.
  change [a1; a2; a3; a4; a5; a6] with (values (six a1 a2 a3 a4 a5 a6)).
  apply (in_map snd _ _ E).
Qed.

(** X8.  The "Dominant Pollutant" metric never shows "N/A": the dominant
    key is always one of the six keys of [POLLUTANT_NAMES]. *)
Theorem dominant_name_is_known (components : dict F) (r : report) :
  analyse components = Ok r ->
  In (dominant r) POLLUTANT_ORDER
  /\ dict_get POLLUTANT_NAMES (dominant r) = Some (dominant_name (dominant r))
  /\ dominant_name (dominant r) <> "N/A"%string.
Proof.
  intro A. destruct (analyse_inv _ _ A)
    as (a1 & a2 & a3 & a4 & a5 & a6 & S & O & D & G).
  destruct (dominant_holds_overall _ _ _ _ _ _ _ _ D O) as [I _].
  split; [exact I|]. simpl in I.
  repeat (destruct I as [<- | I]; [split; [reflexivity | discriminate]|]).
  destruct I.
Qed.

(** X9.  Only the six components are read, and a missing one reads as 0:
    two observations that agree on [components.get(k, 0)] for the six keys
    have the same analysis, whatever else they hold. *)
Theorem only_six_components_are_read (components1 components2 : dict F) :
  (forall k, In k COMPONENT_KEYS -> reading components1 k = reading components2 k) ->
  analyse components1 = analyse components2.
Proof.
  intro E. unfold COMPONENT_KEYS, reading in E.
  unfold analyse, aqi_v. cbv zeta.
  rewrite (E "o3"%string), (E "pm2_5"%string), (E "pm10"%string),
    (E "co"%string), (E "so2"%string), (E "no2"%string)
    by (simpl; tauto).
  reflexivity.
Qed.

End Report.

Lemma report_is_coherent_witness :
  exists r,
    analyse (readings 108 35.4 20 300 10 40 : dict float) = Ok r
    /\ keys (sub_indices r) = POLLUTANT_ORDER
    /\ dict_get (sub_indices r) (dominant r) = Some (overall r)
    /\ (forall k v, dict_get (sub_indices r) k = Some v -> v <= overall r)
    /\ airnow_info r = get_airnow_aqi_info (overall r).
Proof.
  eexists. split; [vm_compute; reflexivity|].
  apply (report_is_coherent (readings 108 35.4 20 300 10 40 : dict float)).
  vm_compute. reflexivity.
Defined.

Lemma dominant_name_is_known_witness :
  exists r,
    analyse (readings 108 35.4 20 300 10 40 : dict float) = Ok r
    /\ In (dominant r) POLLUTANT_ORDER
    /\ dict_get POLLUTANT_NAMES (dominant r) = Some (dominant_name (dominant r))
    /\ dominant_name (dominant r) <> "N/A"%string.
Proof.
  eexists. split; [vm_compute; reflexivity|].
  apply (dominant_name_is_known (readings 108 35.4 20 300 10 40 : dict float)).
  vm_compute. reflexivity.
Defined.

Lemma only_six_components_are_read_witness :
  analyse ([("nh3", lit 4); ("pm2_5", lit 12); ("no", lit 1)]%string : dict float)
  = analyse (readings 0 12 0 0 0 0 : dict float).
Proof.
  apply only_six_components_are_read.
  intros k I. simpl in I.
  repeat (destruct I as [<- | I]; [reflexivity|]).
  destruct I.
Defined.

(** * More on the category lookup *)

(** The records of the guide are made opaque and their ranges kept as
    equations. *)
Ltac name_categories :=
  unfold matching, get_airnow_aqi_info, last_category, AIRNOW_AQI_GUIDE;
  repeat match goal with
         | |- context [Build_category (?lo, ?hi) ?l ?c ?d] =>
             let x := fresh "cat" in
             let E := fresh "E" in
             remember (Build_category (lo, hi) l c d) as x eqn:E;
             apply (f_equal range) in E; cbn [range] in E
         end;
  cbn [filter find last]; unfold in_range;
  repeat match goal with
         | E : range ?x = _ |- _ => rewrite E
         end.

Ltac decide_leb :=
  repeat match goal with
         | |- context [Z.leb ?x ?y] =>
             destruct (Z.leb_spec x y); try (exfalso; lia)
         end.

Section Severity.

(** X10.  A larger AQI never gets a milder category: over the
    non-negative integers the lower bound of the range of the category
    returned by [get_airnow_aqi_info] never decreases. *)
Theorem category_never_milder (a b : Z) :
  0 <= a <= b ->
  fst (range (get_airnow_aqi_info a)) <= fst (range (get_airnow_aqi_info b)).
Proof.
  intro R. name_categories.
  decide_leb; cbn [andb];
    repeat match goal with
           | E : range ?x = _ |- _ => rewrite E; clear E
           end;
    cbn [fst]; lia.
Qed.

Lemma category_never_milder_witness :
  fst (range (get_airnow_aqi_info 120)) <= fst (range (get_airnow_aqi_info 20000)).
Proof.
  apply (category_never_milder 120 20000). lia.
Defined.

(** X11.  A negative value lies in no range of the guide and the fallback
    of [get_airnow_aqi_info] answers with the last category,
    Hazardous. *)
Theorem negative_value_is_hazardous (a : Z) :
  a < 0 ->
  matching a = []
  /\ get_airnow_aqi_info a = last_category
  /\ level (get_airnow_aqi_info a) = "Hazardous"%string.
Proof.
  intro N.
  assert (M : matching a = [] /\ get_airnow_aqi_info a = last_category).
  { name_categories. decide_leb; cbn [andb]; split; reflexivity. }
  destruct M as [M G]. rewrite G. repeat split. exact M.
Qed.

Lemma negative_value_is_hazardous_witness :
  matching (-1) = []
  /\ get_airnow_aqi_info (-1) = last_category
  /\ level (get_airnow_aqi_info (-1)) = "Hazardous"%string.
Proof.
  apply (negative_value_is_hazardous (-1)). lia.
Defined.

End Severity.

(** * The search box and the page *)

Section Search_and_page.

Context {F : Type} `{Number F}.

Lemma query_given (search_query : string) :
  search_query <> ""%string -> String.eqb search_query "" = false.
Proof. intro N. apply String.eqb_neq, N. Qed.

(** X12.  A search changes the session only by moving the map to the
    first match of the geocoding answer, with zoom 13, and only when both
    coordinates of that match are non-zero; otherwise the session is left
    as it was, with at most the "not found" error on the page. *)
Theorem search_moves_only_to_a_match
  (s s' : session F) (search_query : string)
  (response : fetched (list (dict F))) (errors : list string) :
  search s search_query response = Done (s', errors) ->
  (s' = s /\ (errors = [] /\ search_query = ""%string
              \/ errors = [not_found search_query]))
  \/ (exists place rest x y,
         response = Body (place :: rest)
         /\ dict_get place "lat" = Some x /\ dict_get place "lon" = Some y
         /\ truthy x = true /\ truthy y = true
         /\ s' = {| center := (x, y); zoom := 13 |} /\ errors = []).
Proof.
  unfold search.
  destruct (String.eqb_spec search_query "") as [-> | N].
  - intros [= <- <-]. left. auto.
  - unfold geocode_city.
    destruct response as [|[|place rest]]; cbn [both_truthy].
    + intros [= <- <-]. left. split; [reflexivity | right; reflexivity].
    + discriminate.
    + destruct (dict_get place "lat") as [x|] eqn:X; [|discriminate].
      destruct (dict_get place "lon") as [y|] eqn:Y; [|discriminate].
      cbn [both_truthy].
      destruct (truthy x) eqn:Tx; destruct (truthy y) eqn:Ty; cbn [andb];
        intros [= <- <-].
      * right. exists place, rest, x, y. repeat split; assumption.
      * left. split; [reflexivity | right; reflexivity].
      * left. split; [reflexivity | right; reflexivity].
      * left. split; [reflexivity | right; reflexivity].
Qed.

(** X13.  When the geocoding answer is an empty list, [geocode_city]
    returns nothing and the search stops on the unpacking of [None]: no
    "not found" error is written. *)
Theorem search_without_match_crashes (s : session F) (search_query : string) :
  search_query <> ""%string ->
  geocode_city (Body ([] : list (dict F))) = Done None
  /\ search s search_query (Body []) = Crash CannotUnpackNone.
Proof.
  intro N. split; [reflexivity|].
  unfold search. rewrite (query_given _ N). reflexivity.
Qed.

(** X14.  A match with a zero latitude or a zero longitude is treated as no
    match, and so is a failed request: the session is left as it was and
    the "not found" error is written. *)
Theorem zero_coordinate_is_not_found
  (s : session F) (search_query : string)
  (place : dict F) (rest : list (dict F)) (x y : F) :
  search_query <> ""%string ->
  dict_get place "lat" = Some x -> dict_get place "lon" = Some y ->
  truthy x && truthy y = false ->
  search s search_query (Body (place :: rest))
  = Done (s, [not_found search_query])
  /\ search s search_query RequestException
     = Done (s, [not_found search_query]).
Proof.
  intros N X Y T. unfold search. rewrite (query_given _ N).
  split; [|reflexivity].
  unfold geocode_city. rewrite X, Y. cbn [both_truthy]. rewrite T. reflexivity.
Qed.

(** X15.  Nothing is analysed when a request fails, and nothing either
    when the reverse geocoding finds no place, even though the air data
    arrived: unless a click on the map restarts the run, the page shows
    the waiting notice. *)
Theorem page_waits
  (s : session F) (air_res : fetched (air_json F)) (geo_res : fetched geo_json)
  (last_clicked : option (F * F)) :
  air_res = RequestException \/ geo_res = RequestException \/ geo_res = Body [] ->
  (clicked s last_clicked = None ->
   page s air_res geo_res last_clicked = Done (Shown Waiting))
  /\ (forall s', clicked s last_clicked = Some s' ->
                 page s air_res geo_res last_clicked = Done (Rerun s')).
Proof.
  intro E.
  assert (A : analysed air_res geo_res = Done None).
  { unfold analysed, fetch_air_quality_data.
    destruct E as [-> | [-> | ->]].
    - reflexivity.
    - destruct air_res; reflexivity.
    - destruct air_res; reflexivity. }
  unfold page. rewrite A. split.
  - intros ->. reflexivity.
  - intros s' ->. reflexivity.
Qed.

(** X16.  The page is shown to its end with an analysis exactly when no
    click restarts the run, both answers arrived, the reverse geocoding
    found a place, the air data holds the components of a first entry and
    the engine returned: the analysis is the report of the engine on those
    components, under the name of the place, or "Unknown Location" when
    the place has no name. *)
Theorem page_shows_the_analysis
  (s : session F) (air_res : fetched (air_json F)) (geo_res : fetched geo_json)
  (last_clicked : option (F * F)) (location_name : string) (r : report) :
  page s air_res geo_res last_clicked = Done (Shown (Analysis location_name r))
  <-> clicked s last_clicked = None
      /\ exists air_data place rest components,
           air_res = Body air_data /\ geo_res = Body (place :: rest)
           /\ components_of air_data = Done components
           /\ analyse components = Ok r
           /\ location_name
              = dict_get_default place "name" "Unknown Location"%string.
Proof.
  unfold page, analysed, fetch_air_quality_data. split.
  - destruct air_res as [|air_data]; [destruct (clicked s last_clicked); discriminate|].
    destruct geo_res as [|[|place rest]];
      try (destruct (clicked s last_clicked); discriminate).
    destruct (nonempty air_data);
      [|destruct (clicked s last_clicked); discriminate].
    destruct (components_of air_data) as [components|] eqn:C; [|discriminate].
    destruct (analyse components) as [r'|] eqn:A; [|discriminate].
    destruct (clicked s last_clicked); [discriminate|].
    intros [= <- <-]. split; [reflexivity|].
    exists air_data, place, rest, components. auto.
  - intros (K & air_data & place & rest & components & -> & -> & C & A & ->).
    assert (N : nonempty air_data = true).
    { unfold components_of in C. destruct air_data; [discriminate | reflexivity]. }
    rewrite N, C, A, K. reflexivity.
Qed.

(** X17.  A run is restarted exactly when the first block did not stop
    the script and the map was clicked elsewhere than at its centre: the
    new run starts centred on the click, with the zoom unchanged.  A
    click at the current centre changes nothing. *)
Theorem click_moves_the_centre
  (s s' : session F) (air_res : fetched (air_json F)) (geo_res : fetched geo_json)
  (last_clicked : option (F * F)) :
  page s air_res geo_res last_clicked = Done (Rerun s')
  <-> (exists shown, analysed air_res geo_res = Done shown)
      /\ exists new_lat new_lon,
           last_clicked = Some (new_lat, new_lon)
           /\ eqb new_lat (fst (center s)) && eqb new_lon (snd (center s)) = false
           /\ s' = {| center := (new_lat, new_lon); zoom := zoom s |}.
Proof.
  unfold page, clicked. destruct s as [[current_lat current_lon] z].
  cbn [center zoom fst snd]. split.
  - destruct (analysed air_res geo_res) as [shown|]; [|discriminate].
    destruct last_clicked as [[new_lat new_lon]|]; [|discriminate].
    destruct (eqb new_lat current_lat && eqb new_lon current_lon) eqn:E;
      [discriminate|].
    intros [= <-]. split; [exists shown; reflexivity|].
    exists new_lat, new_lon. repeat split. exact E.
  - intros ((shown & ->) & new_lat & new_lon & -> & E & ->).
    rewrite E. reflexivity.
Qed.

End Search_and_page.

Lemma search_moves_only_to_a_match_witness :
  let s := {| center := (lit (-10.9472), lit (-37.0731)); zoom := 13 |} in
  let paris := [("lat", lit 48.8589); ("lon", lit 2.32)]%string : dict float in
  let s' := {| center := (lit 48.8589, lit 2.32); zoom := 13 |} in
  search s "Paris" (Body [paris]) = Done (s', [])
  /\ ((s' = s /\ ([] = @nil string /\ "Paris"%string = ""%string
                   \/ [] = [not_found "Paris"]))
      \/ (exists place rest x y,
             Body [paris] = Body (place :: rest)
             /\ dict_get place "lat" = Some x /\ dict_get place "lon" = Some y
             /\ truthy x = true /\ truthy y = true
             /\ s' = {| center := (x, y); zoom := 13 |} /\ [] = @nil string)).
Proof.
  intros s paris s'. split; [reflexivity|].
  apply (search_moves_only_to_a_match s s' "Paris" (Body [paris]) []).
  reflexivity.
Defined.

Lemma search_without_match_crashes_witness :
  let s := {| center := (lit (-10.9472), lit (-37.0731)); zoom := 13 |} in
  geocode_city (Body ([] : list (dict float))) = Done None
  /\ search s "Atlantis" (Body []) = Crash CannotUnpackNone.
Proof.
  intro s. apply (search_without_match_crashes s "Atlantis"). discriminate.
Defined.

Lemma zero_coordinate_is_not_found_witness :
  let s := {| center := (lit (-10.9472), lit (-37.0731)); zoom := 13 |} in
  let place := [("lat", lit 0); ("lon", lit 32.58)]%string : dict float in
  search s "Equator" (Body [place]) = Done (s, [not_found "Equator"])
  /\ search s "Equator" RequestException = Done (s, [not_found "Equator"]).
Proof.
  intros s place.
  apply (zero_coordinate_is_not_found s "Equator" place [] (lit 0) (lit 32.58)).
  - discriminate.
  - reflexivity.
  - reflexivity.
  - vm_compute. reflexivity.
Defined.

Lemma page_waits_witness :
  let s := {| center := (lit (-10.9472), lit (-37.0731)); zoom := 13 |} in
  let air_res :=
    Body [("list", [[("components", readings 108 35.4 20 300 10 40)]])]%string
    : fetched (air_json float) in
  page s air_res (Body []) None = Done (Shown Waiting)
  /\ page s air_res (Body []) (Some (lit 48.8589, lit 2.32))
     = Done (Rerun {| center := (lit 48.8589, lit 2.32); zoom := 13 |}).
Proof.
  intros s air_res.
  destruct (page_waits s air_res (Body []) None) as [W _];
    [right; right; reflexivity|].
  destruct (page_waits s air_res (Body []) (Some (lit 48.8589, lit 2.32)))
    as [_ R]; [right; right; reflexivity|].
  split; [apply W; reflexivity | apply R; reflexivity].
Defined.

Lemma page_shows_the_analysis_witness :
  let s := {| center := (lit (-10.9472), lit (-37.0731)); zoom := 13 |} in
  let components := readings 108 35.4 20 300 10 40 : dict float in
  let air_res := Body [("list", [[("components", components)]])]%string in
  let geo_res := Body [[("name", "Aracaju")]]%string in
  exists r,
    analyse components = Ok r
    /\ page s air_res geo_res None = Done (Shown (Analysis "Aracaju" r)).
Proof.
  intros s components air_res geo_res.
  destruct (analyse components) as [r|e] eqn:A; [|vm_compute in A; discriminate].
  exists r. split; [reflexivity|].
  apply (proj2 (page_shows_the_analysis s air_res geo_res None "Aracaju" r)).
  split; [reflexivity|].
  exists [("list", [[("components", components)]])]%string,
         [("name", "Aracaju")]%string, [], components.
  repeat split. exact A.
Defined.

Lemma click_moves_the_centre_witness :
  let s := {| center := (lit (-10.9472), lit (-37.0731)); zoom := 13 |} in
  page s RequestException (RequestException : fetched geo_json)
       (Some (lit 48.8589, lit 2.32))
  = Done (Rerun {| center := (lit 48.8589, lit 2.32) : float * float; zoom := 13 |}).
Proof.
  intro s.
  apply (proj2 (click_moves_the_centre s _ RequestException RequestException
                  (Some (lit 48.8589, lit 2.32)))).
  split; [exists None; reflexivity|].
  exists (lit 48.8589), (lit 2.32). repeat split.
Defined.
